(** * godate: the [LocalDate] value type of package [localdate]

    A shallow embedding of [localdate.go] together with the parts of Go's
    standard library it calls ([time.Date], [Time.Unix], [Time.Date],
    [Time.Format] and [time.Parse] at the layout ["2006-01-02"], and
    [encoding/json] on strings; the calendar algorithms are those of
    Go 1.22), followed by the properties of the date type: ordering, day
    and calendar arithmetic, text and persistence encodings.

    Conventions.
    - Go's [int32] is a [Z] with the wrap-around of a conversion or of an
      addition written out ([wrap32]).
    - Go's [int], [int64] and [uint64] are [Z] without wrap-around: the
      [time] package and the sums of [AddDate] are modelled where their
      64-bit arithmetic does not overflow.  That covers every instant a
      [LocalDate] can hold and every call of [time.Date] whose year,
      month and day are at most [2^32] in absolute value
      ([Date_within_64_bits]); the properties of [NewLocalDate] and
      [AddDate] are stated inside that range.
    - A Go [string] is a sequence of bytes: Rocq's [string] of 8-bit
      [ascii]. *)

From Stdlib Require Import ZArith Lia Bool List Ascii String.
Import ListNotations.
Local Open Scope Z_scope.

(* ================================================================= *)
(** ** Fixed-width integers *)

Module GoInt.

Definition MaxInt32 : Z := 2147483647.
Definition MinInt32 : Z := -2147483648.

(** The value of [int32(x)]: the low 32 bits of [x], read as a signed
    two's-complement number. *)
Definition wrap32 (x : Z) : Z := (x + 2 ^ 31) mod 2 ^ 32 - 2 ^ 31.

Definition in_int32 (x : Z) : Prop := MinInt32 <= x <= MaxInt32.

End GoInt.

(* ================================================================= *)
(** ** Errors and fallible results *)

(** The errors the package hands to its callers: [*time.ParseError] from
    [time.Parse], the errors of [json.Unmarshal], and the error that
    [Scan] builds with [fmt.Errorf].  Of a [*time.ParseError] the
    [detail] is the fixed part of its message, without the quoted text
    that Go appends. *)
Inductive error : Type :=
| TimeParseError (detail : string)
| JsonError (detail : string)
| ScanTypeError (msg : string).

Inductive result (A : Type) : Type :=
| Ok (a : A)
| Err (e : error).
Arguments Ok {A} a.
Arguments Err {A} e.

(* ================================================================= *)
(** ** Bytes of a string *)

Module Bytes.

Definition code (c : ascii) : Z := Z.of_N (N_of_ascii c).
Definition chr (z : Z) : ascii := ascii_of_N (Z.to_N z).

Definition isDigitChar (c : ascii) : bool := (48 <=? code c) && (code c <=? 57).

(** [s[n:]], for [n <= len(s)]. *)
Fixpoint drop (n : nat) (s : string) : string :=
  match n, s with
  | O, _ => s
  | S n, String _ r => drop n r
  | S _, EmptyString => EmptyString
  end.

(** [s[:n]], for [n <= len(s)]. *)
Fixpoint take (n : nat) (s : string) : string :=
  match n, s with
  | O, _ => EmptyString
  | S n, String c r => String c (take n r)
  | S _, EmptyString => EmptyString
  end.

Definition len (s : string) : Z := Z.of_nat (String.length s).

End Bytes.

(* ================================================================= *)
(** ** Package [time] *)

Module GoTime.

Import Bytes.
Local Open Scope string_scope.
Local Open Scope Z_scope.

Definition secondsPerDay : Z := 86400.
Definition daysPer400Years : Z := 365 * 400 + 97.
Definition daysPer100Years : Z := 365 * 100 + 24.
Definition daysPer4Years : Z := 365 * 4 + 1.

Definition absoluteZeroYear : Z := -292277022399.
Definition internalYear : Z := 1.
Definition absoluteToInternal : Z :=
  (absoluteZeroYear - internalYear) * 3652425 / 10000 * secondsPerDay.
Definition internalToAbsolute : Z := - absoluteToInternal.
Definition unixToInternal : Z :=
  (1969 * 365 + 1969 / 4 - 1969 / 100 + 1969 / 400) * secondsPerDay.
Definition internalToUnix : Z := - unixToInternal.

Definition February : Z := 2.
Definition March : Z := 3.

(** [daysBefore[m]] counts the days of a non-leap year before month [m+1]. *)
Definition daysBeforeTable : list Z :=
  [0; 31; 59; 90; 120; 151; 181; 212; 243; 273; 304; 334; 365].

(** The table is only read at indices 0..12: months are normalised
    before they index it. *)
Definition daysBefore (i : Z) : Z := nth (Z.to_nat i) daysBeforeTable 0.

(** [year%4 == 0 && (year%100 != 0 || year%400 == 0)]; Go's [%] is the
    truncated remainder. *)
Definition isLeap (year : Z) : bool :=
  (Z.rem year 4 =? 0) &&
  (negb (Z.rem year 100 =? 0) || (Z.rem year 400 =? 0)).

Definition daysIn (m year : Z) : Z :=
  if (m =? February) && isLeap year then 29
  else daysBefore m - daysBefore (m - 1).

(** [norm(hi, lo, base)]: carry [lo] into [hi] until [0 <= lo < base]. *)
Definition norm (hi lo base : Z) : Z * Z :=
  let '(hi, lo) :=
    if lo <? 0 then
      let n := Z.quot (- lo - 1) base + 1 in (hi - n, lo + n * base)
    else (hi, lo) in
  if base <=? lo then
    let n := Z.quot lo base in (hi + n, lo - n * base)
  else (hi, lo).

(** Days from the absolute epoch to the first day of [year]. *)
Definition daysSinceEpoch (year : Z) : Z :=
  let y := year - absoluteZeroYear in
  let n := y / 400 in
  let y := y - 400 * n in
  let d := daysPer400Years * n in
  let n := y / 100 in
  let y := y - 100 * n in
  let d := d + daysPer100Years * n in
  let n := y / 4 in
  let y := y - 4 * n in
  let d := d + daysPer4Years * n in
  let n := y in
  d + 365 * n.

(** An instant: seconds and nanoseconds since the Unix epoch, and the
    offset east of UTC, in seconds, that the instant's location has at
    that instant (0 for UTC). *)
Record Time : Type := mkTime { unixSec : Z; nsec : Z; zoneOffset : Z }.

(** [time.Time{}]: January 1 of year 1, 00:00:00 UTC. *)
Definition zeroTime : Time := mkTime internalToUnix 0 0.

(** [time.Unix(sec, 0).UTC()].  [time.Unix] alone yields the instant in
    the local zone; the package converts it to UTC at once. *)
Definition UnixUTC (sec : Z) : Time := mkTime sec 0 0.

(** [t.UTC()]. *)
Definition UTC (t : Time) : Time := mkTime (unixSec t) (nsec t) 0.

Definition Unix (t : Time) : Z := unixSec t.

(** Days since the absolute epoch of the calendar date
    [year]-[month]-[day] after normalisation of the month; the day is
    added as it is, which is what carries it into later months. *)
Definition dateToAbsDays (year month day : Z) : Z :=
  let m := month - 1 in
  let '(year, m) := norm year m 12 in
  let month := m + 1 in
  let d := daysSinceEpoch year in
  let d := d + daysBefore (month - 1) in
  let d := if isLeap year && (March <=? month) then d + 1 else d in
  d + (day - 1).

(** [time.Date(year, month, day, 0, 0, 0, 0, time.UTC)], in integers
    without wrap-around: the value of the Go function as long as its
    [uint64] and [int64] intermediate results do not overflow. *)
Definition Date (year month day : Z) : Time :=
  let abs := dateToAbsDays year month day * secondsPerDay in
  let unix := abs + (absoluteToInternal + internalToUnix) in
  mkTime unix 0 0.

(** [t.abs()]: seconds since the absolute epoch on the clock of [t]'s
    location. *)
Definition abs (t : Time) : Z :=
  unixSec t + zoneOffset t + (unixToInternal + internalToAbsolute).

(** [absDate(abs, false)]: the year and the day within it, from 0. *)
Definition absYearDay (abs : Z) : Z * Z :=
  let d := abs / secondsPerDay in
  let n := d / daysPer400Years in
  let y := 400 * n in
  let d := d - daysPer400Years * n in
  let n := d / daysPer100Years in
  let n := n - Z.shiftr n 2 in
  let y := y + 100 * n in
  let d := d - daysPer100Years * n in
  let n := d / daysPer4Years in
  let y := y + 4 * n in
  let d := d - daysPer4Years * n in
  let n := d / 365 in
  let n := n - Z.shiftr n 2 in
  let y := y + n in
  let d := d - 365 * n in
  (y + absoluteZeroYear, d).

(** The month and the day of the month of day [yday] of a year. *)
Definition monthDay (leap : bool) (yday : Z) : Z * Z :=
  let day := yday in
  if leap && (day =? 31 + 29 - 1) then (February, 29)
  else
    let day := if leap && (31 + 29 - 1 <? day) then day - 1 else day in
    let month := Z.quot day 31 in
    let end_ := daysBefore (month + 1) in
    let '(month, begin) :=
      if end_ <=? day then (month + 1, end_) else (month, daysBefore month) in
    (month + 1, day - begin + 1).

(** [absDate(abs, true)] without its fourth result. *)
Definition absDate (abs : Z) : Z * Z * Z :=
  let '(year, yday) := absYearDay abs in
  let '(month, day) := monthDay (isLeap year) yday in
  (year, month, day).

(** [t.Date()]. *)
Definition DateOf (t : Time) : Z * Z * Z := absDate (abs t).

Definition Year (t : Time) : Z := fst (fst (DateOf t)).
Definition Month (t : Time) : Z := snd (fst (DateOf t)).
Definition Day (t : Time) : Z := snd (DateOf t).

(** *** Formatting with the layout ["2006-01-02"] *)

Definition digit (d : Z) : ascii := chr (48 + d).

(** The decimal digits of [u > 0] in front of [acc]; [fuel] bounds the
    number of digits. *)
Fixpoint udigits (fuel : nat) (u : Z) (acc : string) : string :=
  match fuel with
  | O => acc
  | S fuel =>
      if u <=? 0 then acc
      else udigits fuel (u / 10) (String (digit (u mod 10)) acc)
  end.

Fixpoint zeros (n : nat) : string :=
  match n with
  | O => EmptyString
  | S n => String "0" (zeros n)
  end.

(** [appendInt(b, x, width)]: a minus sign for a negative [x], then the
    digits of its magnitude, padded with zeros to [width] digits. *)
Definition appendInt (x : Z) (width : Z) : string :=
  let sign := if x <? 0 then "-" else EmptyString in
  let u := Z.abs x in
  if (width =? 2) && (u <? 100) then
    sign ++ String (digit (u / 10)) (String (digit (u mod 10)) EmptyString)
  else if (width =? 4) && (u <? 10000) then
    sign ++ String (digit (u / 100 / 10)) (String (digit (u / 100 mod 10))
              (String (digit (u mod 100 / 10)) (String (digit (u mod 100 mod 10)) EmptyString)))
  else
    let ds := if u =? 0 then "0" else udigits (S (Z.to_nat (Z.log2 u))) u EmptyString in
    sign ++ zeros (Z.to_nat (width - len ds)) ++ ds.

(** [t.Format("2006-01-02")]. *)
Definition Format_2006_01_02 (t : Time) : string :=
  let '(year, month, day) := DateOf t in
  appendInt year 4 ++ "-" ++ appendInt month 2 ++ "-" ++ appendInt day 2.

(** *** Parsing with the layout ["2006-01-02"] *)

Definition isDigit (s : string) (i : nat) : bool :=
  match String.get i s with
  | Some c => isDigitChar c
  | None => false
  end.

(** [leadingInt(s)]: the leading decimal digits of [s] as a number and
    what follows them; it fails on a number beyond [1<<63]. *)
Fixpoint leadingInt (s : string) (x : Z) : option (Z * string) :=
  match s with
  | EmptyString => Some (x, s)
  | String c r =>
      if isDigitChar c then
        if 2 ^ 63 / 10 <? x then None
        else
          let x := x * 10 + code c - 48 in
          if 2 ^ 63 <? x then None else leadingInt r x
      else Some (x, s)
  end.

(** [atoi(s)]: an optional sign and digits, nothing else. *)
Definition atoi (s : string) : option Z :=
  let '(neg, s) :=
    match s with
    | String c r =>
        if (c =? "-")%char then (true, r)
        else if (c =? "+")%char then (false, r)
        else (false, s)
    | EmptyString => (false, s)
    end in
  match leadingInt s 0 with
  | Some (q, EmptyString) => Some (if neg then - q else q)
  | _ => None
  end.

(** [getnum(s, fixed)]: one or two digits ([fixed]: exactly two). *)
Definition getnum (s : string) (fixed : bool) : option (Z * string) :=
  if negb (isDigit s 0) then None
  else if negb (isDigit s 1) then
    if fixed then None
    else match s with
         | String c r => Some (code c - 48, r)
         | EmptyString => None
         end
  else match s with
       | String c0 (String c1 r) => Some ((code c0 - 48) * 10 + (code c1 - 48), r)
       | _ => None
       end.

(** The literal text between two fields of the layout. *)
Definition skipPrefix (prefix value : string) : option string :=
  if String.prefix prefix value
  then Some (drop (String.length prefix) value) else None.

Definition parseErr {A : Type} (detail : string) : result A :=
  Err (TimeParseError detail).

(** [time.Parse("2006-01-02", value)]: the year is four digits, the
    month and the day two digits each, nothing may follow, the month is
    in 1..12 and the day exists in that month of that year. *)
Definition Parse_2006_01_02 (value : string) : result Time :=
  if (len value <? 4) || negb (isDigit value 0) then parseErr EmptyString
  else
    let p := take 4 value in
    let value := drop 4 value in
    match atoi p with
    | None => parseErr EmptyString
    | Some year =>
    match skipPrefix "-" value with
    | None => parseErr EmptyString
    | Some value =>
    match getnum value true with
    | None => parseErr EmptyString
    | Some (month, value) =>
    if (month <=? 0) || (12 <? month) then parseErr ": month out of range"
    else
    match skipPrefix "-" value with
    | None => parseErr EmptyString
    | Some value =>
    match getnum value true with
    | None => parseErr EmptyString
    | Some (day, value) =>
    if 0 <? len value then parseErr ": extra text"
    else if (day <? 1) || (daysIn month year <? day)
    then parseErr ": day out of range"
    else Ok (Date year month day)
    end end end end end.

End GoTime.

(* ================================================================= *)
(** ** Package [encoding/json], on strings *)

Module Json.

Import Bytes.
Local Open Scope string_scope.
Local Open Scope Z_scope.

Definition quote : ascii := chr 34.
Definition backslash : ascii := chr 92.

Definition isSpace (c : ascii) : bool :=
  (code c =? 32) || (code c =? 9) || (code c =? 13) || (code c =? 10).

Fixpoint skipSpace (s : string) : string :=
  match s with
  | String c r => if isSpace c then skipSpace r else s
  | EmptyString => s
  end.

(** *** UTF-8 *)

Definition isCont (c : ascii) : bool := (128 <=? code c) && (code c <=? 191).

(** The first two bytes of a well-formed sequence of [n] bytes. *)
Definition validLead (n : Z) (c0 c1 : ascii) : bool :=
  let b0 := code c0 in
  let b1 := code c1 in
  let between lo hi := (lo <=? b1) && (b1 <=? hi) in
  if (194 <=? b0) && (b0 <=? 223) then (n =? 2) && between 128 191
  else if b0 =? 224 then (n =? 3) && between 160 191
  else if b0 =? 237 then (n =? 3) && between 128 159
  else if (225 <=? b0) && (b0 <=? 239) then (n =? 3) && between 128 191
  else if b0 =? 240 then (n =? 4) && between 144 191
  else if (241 <=? b0) && (b0 <=? 243) then (n =? 4) && between 128 191
  else if b0 =? 244 then (n =? 4) && between 128 143
  else false.

(** [utf8.EncodeRune]: surrogates and runes beyond U+10FFFF become
    U+FFFD. *)
Definition encodeRune (r : Z) : string :=
  let cont x := chr (128 + x mod 64) in
  if r <? 0 then String (chr 239) (String (chr 191) (String (chr 189) EmptyString))
  else if r <? 128 then String (chr r) EmptyString
  else if r <? 2048 then String (chr (192 + r / 64)) (String (cont r) EmptyString)
  else if ((55296 <=? r) && (r <=? 57343)) || (1114111 <? r)
  then String (chr 239) (String (chr 191) (String (chr 189) EmptyString))
  else if r <? 65536
  then String (chr (224 + r / 4096)) (String (cont (r / 64)) (String (cont r) EmptyString))
  else String (chr (240 + r / 262144))
         (String (cont (r / 4096)) (String (cont (r / 64)) (String (cont r) EmptyString))).

Definition replacement : string := encodeRune 65533.

(** *** Decoding a JSON string literal *)

Definition hexval (c : ascii) : option Z :=
  let b := code c in
  if (48 <=? b) && (b <=? 57) then Some (b - 48)
  else if (97 <=? b) && (b <=? 102) then Some (b - 97 + 10)
  else if (65 <=? b) && (b <=? 70) then Some (b - 65 + 10)
  else None.

Definition getu4 (h1 h2 h3 h4 : ascii) : option Z :=
  match hexval h1, hexval h2, hexval h3, hexval h4 with
  | Some a, Some b, Some c, Some d => Some (((a * 16 + b) * 16 + c) * 16 + d)
  | _, _, _, _ => None
  end.

Definition isSurrogate (r : Z) : bool := (55296 <=? r) && (r <? 57344).

(** [utf16.DecodeRune]. *)
Definition decodePair (r1 r2 : Z) : option Z :=
  if (55296 <=? r1) && (r1 <? 56320) && (56320 <=? r2) && (r2 <? 57344)
  then Some ((r1 - 55296) * 1024 + (r2 - 56320) + 65536)
  else None.

Definition emit (pre : string) (r : option (string * string))
  : option (string * string) :=
  match r with
  | Some (out, rest) => Some (pre ++ out, rest)
  | None => None
  end.

(** The one-letter escapes the scanner accepts after a backslash. *)
Definition simpleEscape (e : ascii) : option ascii :=
  let b := code e in
  if (b =? 34) || (b =? 92) || (b =? 47) then Some e
  else if b =? 98 then Some (chr 8)
  else if b =? 102 then Some (chr 12)
  else if b =? 110 then Some (chr 10)
  else if b =? 114 then Some (chr 13)
  else if b =? 116 then Some (chr 9)
  else None.

(** The text of a string literal after its opening quote: the decoded
    contents and what follows the closing quote.  Escapes are resolved,
    a control character or a bad escape is an error, and bytes that are
    not well-formed UTF-8 are replaced by U+FFFD. *)
Fixpoint unquoteBody (s : string) : option (string * string) :=
  match s with
  | EmptyString => None
  | String c rest =>
      if (c =? quote)%char then Some (EmptyString, rest)
      else if (c =? backslash)%char then
        match rest with
        | EmptyString => None
        | String e r1 =>
            if code e =? 117 then
              match r1 with
              | String h1 (String h2 (String h3 (String h4 r5))) =>
                  match getu4 h1 h2 h3 h4 with
                  | None => None
                  | Some rr =>
                      if isSurrogate rr then
                        match r5 with
                        | String b (String u (String k1 (String k2
                            (String k3 (String k4 r11))))) =>
                            match
                              (if (b =? backslash)%char && (code u =? 117)
                               then getu4 k1 k2 k3 k4 else None)
                            with
                            | Some rr1 =>
                                match decodePair rr rr1 with
                                | Some dec => emit (encodeRune dec) (unquoteBody r11)
                                | None => emit replacement (unquoteBody r5)
                                end
                            | None => emit replacement (unquoteBody r5)
                            end
                        | _ => emit replacement (unquoteBody r5)
                        end
                      else emit (encodeRune rr) (unquoteBody r5)
                  end
              | _ => None
              end
            else
              match simpleEscape e with
              | Some x => emit (String x EmptyString) (unquoteBody r1)
              | None => None
              end
        end
      else if code c <? 32 then None
      else if code c <? 128 then emit (String c EmptyString) (unquoteBody rest)
      else
        let bad := emit replacement (unquoteBody rest) in
        match rest with
        | String c1 r2 =>
            if validLead 2 c c1 then
              emit (String c (String c1 EmptyString)) (unquoteBody r2)
            else
              match r2 with
              | String c2 r3 =>
                  if validLead 3 c c1 && isCont c2 then
                    emit (String c (String c1 (String c2 EmptyString))) (unquoteBody r3)
                  else
                    match r3 with
                    | String c3 r4 =>
                        if validLead 4 c c1 && isCont c2 && isCont c3 then
                          emit (String c (String c1 (String c2 (String c3 EmptyString))))
                               (unquoteBody r4)
                        else bad
                    | EmptyString => bad
                    end
              | EmptyString => bad
              end
        | EmptyString => bad
        end
  end.

(** [json.Unmarshal(data, &s)] for a [string] variable [s] that holds
    the empty string: a string literal is decoded, [null] leaves [s] as it is, and
    everything else (another JSON value, or text that is not JSON) is
    an error. *)
Definition UnmarshalString (data : string) : result string :=
  match skipSpace data with
  | String c rest =>
      if (c =? quote)%char then
        match unquoteBody rest with
        | Some (s, after) =>
            match skipSpace after with
            | EmptyString => Ok s
            | _ => Err (JsonError "invalid character after top-level value")
            end
        | None => Err (JsonError "invalid string literal")
        end
      else if String.prefix "null" (String c rest) then
        match skipSpace (drop 4 (String c rest)) with
        | EmptyString => Ok EmptyString
        | _ => Err (JsonError "invalid character after top-level value")
        end
      else Err (JsonError "cannot unmarshal into Go value of type string")
  | EmptyString => Err (JsonError "unexpected end of JSON input")
  end.

(** *** Encoding a string *)

Definition hexDigit (d : Z) : ascii :=
  if d <? 10 then chr (48 + d) else chr (97 + d - 10).

(** The escape of an ASCII byte outside the HTML-safe set. *)
Definition escapeAscii (c : ascii) : string :=
  let b := code c in
  if (b =? 92) || (b =? 34) then String backslash (String c EmptyString)
  else if b =? 8 then String backslash "b"
  else if b =? 12 then String backslash "f"
  else if b =? 10 then String backslash "n"
  else if b =? 13 then String backslash "r"
  else if b =? 9 then String backslash "t"
  else String backslash
         ("u00" ++ String (hexDigit (b / 16)) (String (hexDigit (b mod 16)) EmptyString)).

(** [htmlSafeSet]: the ASCII bytes written as they are. *)
Definition htmlSafe (c : ascii) : bool :=
  let b := code c in
  (32 <=? b) && negb ((b =? 34) || (b =? 38) || (b =? 60) || (b =? 62) || (b =? 92)).

Definition badRune : string := String backslash "ufffd".

Fixpoint appendStringBody (s : string) : string :=
  match s with
  | EmptyString => EmptyString
  | String c rest =>
      if code c <? 128 then
        (if htmlSafe c then String c EmptyString else escapeAscii c) ++ appendStringBody rest
      else
        let bad := badRune ++ appendStringBody rest in
        match rest with
        | String c1 r2 =>
            if validLead 2 c c1 then
              String c (String c1 (appendStringBody r2))
            else
              match r2 with
              | String c2 r3 =>
                  if validLead 3 c c1 && isCont c2 then
                    if (code c =? 226) && (code c1 =? 128)
                       && ((code c2 =? 168) || (code c2 =? 169))
                    then String backslash
                           ("u202" ++ String (hexDigit (code c2 - 160)) EmptyString)
                           ++ appendStringBody r3
                    else String c (String c1 (String c2 (appendStringBody r3)))
                  else
                    match r3 with
                    | String c3 r4 =>
                        if validLead 4 c c1 && isCont c2 && isCont c3 then
                          String c (String c1 (String c2 (String c3
                            (appendStringBody r4))))
                        else bad
                    | EmptyString => bad
                    end
              | EmptyString => bad
              end
        | EmptyString => bad
        end
  end.

(** [json.Marshal(s)] for a string [s]; it cannot fail. *)
Definition MarshalString (s : string) : string :=
  String quote (appendStringBody s ++ String quote EmptyString).

(** The literal [`"s"`] as Go source writes it. *)
Definition quoted (s : string) : string := String quote (s ++ String quote EmptyString).

End Json.

(* ================================================================= *)
(** ** Package [localdate] *)

Module localdate.

Import GoInt Bytes.
Local Open Scope string_scope.
Local Open Scope Z_scope.

Record LocalDate : Type := mkLocalDate { Days : Z; Valid : bool }.

(** [LocalDate{}]. *)
Definition zeroLocalDate : LocalDate := mkLocalDate 0 false.

Definition daysInfinity : Z := MaxInt32.
Definition daysNegInfinity : Z := MinInt32.

(** The conversion to [int32] is written out; the call of [time.Date]
    is exact in the range of [GoTime.Date]. *)
Definition NewLocalDate (year month day : Z) : LocalDate :=
  let t := GoTime.Date year month day in
  let epochDays := wrap32 (Z.quot (GoTime.Unix t) 86400) in
  mkLocalDate epochDays true.

Definition InfinityDate : LocalDate := mkLocalDate daysInfinity true.

Definition NegInfinityDate : LocalDate := mkLocalDate daysNegInfinity true.

Definition IsInfinity (d : LocalDate) : bool := Days d =? daysInfinity.

Definition IsNegInfinity (d : LocalDate) : bool := Days d =? daysNegInfinity.

Definition Time (d : LocalDate) : GoTime.Time :=
  if IsInfinity d then GoTime.zeroTime
  else GoTime.UnixUTC (Days d * 86400).

Definition InfinityModifier (d : LocalDate) : Z :=
  if Days d =? daysInfinity then 1
  else if Days d =? daysNegInfinity then -1
  else 0.

Definition MarshalJSON (d : LocalDate) : result string :=
  if IsInfinity d then Ok (Json.quoted "infinity")
  else if IsNegInfinity d then Ok (Json.quoted "-infinity")
  else Ok (Json.MarshalString (GoTime.Format_2006_01_02 (Time d))).

(** A method on [*LocalDate]: the receiver goes in and comes out, next
    to the error ([None] for [nil]). *)
Definition UnmarshalJSON (d : LocalDate) (data : string)
  : LocalDate * option error :=
  match Json.UnmarshalString data with
  | Err e => (d, Some e)
  | Ok s =>
      if (s =? "infinity")%string then (mkLocalDate daysInfinity (Valid d), None)
      else if (s =? "-infinity")%string
      then (mkLocalDate daysNegInfinity (Valid d), None)
      else
        match GoTime.Parse_2006_01_02 s with
        | Err e => (d, Some e)
        | Ok t => (NewLocalDate (GoTime.Year t) (GoTime.Month t) (GoTime.Day t), None)
        end
  end.

(** What a database driver may hand to [Scan]: an instant, a string,
    [nil], or a value of any other type, of which [Scan] only prints
    the type ([%T]). *)
Inductive ScanValue : Type :=
| SVTime (t : GoTime.Time)
| SVString (s : string)
| SVNil
| SVOther (typeName : string).

Definition Scan (d : LocalDate) (value : ScanValue) : LocalDate * option error :=
  match value with
  | SVTime v => (NewLocalDate (GoTime.Year v) (GoTime.Month v) (GoTime.Day v), None)
  | SVString v =>
      if (v =? "infinity")%string then (mkLocalDate daysInfinity (Valid d), None)
      else if (v =? "-infinity")%string
      then (mkLocalDate daysNegInfinity (Valid d), None)
      else
        match GoTime.Parse_2006_01_02 v with
        | Err e => (d, Some e)
        | Ok t => (NewLocalDate (GoTime.Year t) (GoTime.Month t) (GoTime.Day t), None)
        end
  | SVNil => (d, None)
  | SVOther typeName =>
      (d, Some (ScanTypeError
                  ("unsupported Scan, storing " ++ typeName ++ " into LocalDate")))
  end.

(** A [driver.Value] as [Value] produces it. *)
Inductive DriverValue : Type :=
| DVString (s : string)
| DVTime (t : GoTime.Time).

Definition Value (d : LocalDate) : result DriverValue :=
  if IsInfinity d then Ok (DVString "infinity")
  else if IsNegInfinity d then Ok (DVString "-infinity")
  else Ok (DVTime (Time d)).

(** [pgtype.Date]; its [InfinityModifier] is 1, 0 ([pgtype.Finite]) or -1. *)
Record pgtypeDate : Type :=
  mkPgDate { pgTime : GoTime.Time; pgInfinityModifier : Z; pgValid : bool }.

Definition pgFinite : Z := 0.

Definition PgDate (d : LocalDate) : pgtypeDate :=
  if negb (Valid d) then mkPgDate GoTime.zeroTime 0 false
  else
    let modifier := InfinityModifier d in
    if negb (modifier =? 0) then mkPgDate GoTime.zeroTime modifier true
    else mkPgDate (Time d) pgFinite true.

(** [Today()], given the instant that [time.Now()] returns. *)
Definition Today (now : GoTime.Time) : LocalDate :=
  let now := GoTime.UTC now in
  NewLocalDate (GoTime.Year now) (GoTime.Month now) (GoTime.Day now).

(** [At] returns a date and an error ([None] for [nil]). *)
Definition At (at_ : string) : LocalDate * option error :=
  match GoTime.Parse_2006_01_02 at_ with
  | Err e => (zeroLocalDate, Some e)
  | Ok t => (NewLocalDate (GoTime.Year t) (GoTime.Month t) (GoTime.Day t), None)
  end.

Definition ToLocalDate (t : GoTime.Time) : LocalDate :=
  NewLocalDate (GoTime.Year t) (GoTime.Month t) (GoTime.Day t).

(** [a == b] on the struct: both fields. *)
Definition IsEqual (a b : LocalDate) : bool :=
  (Days a =? Days b) && Bool.eqb (Valid a) (Valid b).

Definition IsAfter (a b : LocalDate) : bool := Days b <? Days a.

Definition IsBefore (a b : LocalDate) : bool := Days a <? Days b.

Definition AddDays (a : LocalDate) (n : Z) : LocalDate :=
  if IsInfinity a || IsNegInfinity a then a
  else mkLocalDate (wrap32 (Days a + wrap32 n)) true.

(** The three sums are sums of Go's [int]; they are exact for offsets
    that do not overflow 64 bits. *)
Definition AddDate (t : LocalDate) (years months days : Z) : LocalDate :=
  if IsInfinity t || IsNegInfinity t then t
  else
    let '(year, month, day) := GoTime.DateOf (Time t) in
    NewLocalDate (year + years) (month + months) (day + days).

Definition IsBetween (needle from to : LocalDate) : bool :=
  (Days from <=? Days needle) && (Days needle <=? Days to).

End localdate.

Import GoInt Bytes GoTime localdate.
Local Open Scope string_scope.
Local Open Scope Z_scope.

(* ================================================================= *)
(** ** Vocabulary of the properties *)

(** The integers [0 .. n-1], to check a property on a range by
    computation. *)
Definition upto (n : nat) : list Z := map Z.of_nat (seq 0 n).

Definition leapDay (leap : bool) : Z := if leap then 1 else 0.

(** The length of month [m] in a leap or a common year: [daysIn] without
    the year. *)
Definition daysInMonth (leap : bool) (m : Z) : Z :=
  if (m =? February) && leap then 29 else daysBefore m - daysBefore (m - 1).

(** The day of the year, from 0, of day [day] of month [month]. *)
Definition yearDay (leap : bool) (month day : Z) : Z :=
  daysBefore (month - 1) + (if leap && (March <=? month) then 1 else 0) + (day - 1).

(** [month] and [day] name a day that the year [year] has. *)
Definition validDate (year month day : Z) : Prop :=
  1 <= month <= 12 /\ 1 <= day <= daysIn month year.

Definition validDateb (year month day : Z) : bool :=
  (1 <=? month) && (month <=? 12) && (1 <=? day) && (day <=? daysIn month year).

(** The absolute day of the Unix epoch, 1970-01-01. *)
Definition epochAbsDays : Z := (unixToInternal + internalToAbsolute) / secondsPerDay.

(** The number of days from 1970-01-01 to the calendar date
    [year]-[month]-[day], with the carries of [time.Date], before it is
    cut to 32 bits. *)
Definition epochDay (year month day : Z) : Z :=
  dateToAbsDays year month day - epochAbsDays.

(** A well-formed [LocalDate]: its [Days] is an [int32]. *)
Definition wf (d : LocalDate) : Prop := in_int32 (Days d).

(** A finite date: neither sentinel. *)
Definition finite (d : LocalDate) : Prop :=
  wf d /\ Days d <> daysInfinity /\ Days d <> daysNegInfinity.

(** The value of a decimal digit. *)
Definition dig (c : ascii) : Z := code c - 48.

(** The strict shape of a date text, as the specification words it: four
    digits, a hyphen, two digits, a hyphen, two digits and nothing
    else; the three numbers it spells. *)
Definition dateFields (s : string) : option (Z * Z * Z) :=
  match s with
  | String y1 (String y2 (String y3 (String y4 (String h1
      (String m1 (String m2 (String h2 (String d1 (String d2 EmptyString))))))))) =>
      if isDigitChar y1 && isDigitChar y2 && isDigitChar y3 && isDigitChar y4
         && (h1 =? "-")%char && isDigitChar m1 && isDigitChar m2
         && (h2 =? "-")%char && isDigitChar d1 && isDigitChar d2
      then Some (((dig y1 * 10 + dig y2) * 10 + dig y3) * 10 + dig y4,
                 dig m1 * 10 + dig m2, dig d1 * 10 + dig d2)
      else None
  | _ => None
  end.

(** The text [YYYY-MM-DD] of a year in 0..9999, a month and a day below
    100. *)
Definition fmtDate (y m d : Z) : string :=
  String (digit (y / 100 / 10)) (String (digit (y / 100 mod 10))
    (String (digit (y mod 100 / 10)) (String (digit (y mod 100 mod 10))
      (String "-" (String (digit (m / 10)) (String (digit (m mod 10))
        (String "-" (String (digit (d / 10)) (String (digit (d mod 10))
          EmptyString))))))))).

(** A byte that [encoding/json] writes and reads as it is. *)
Definition plainChar (c : ascii) : bool := Json.htmlSafe c && (code c <? 128).

(** Exactly one of three tests answers [true]. *)
Definition exactlyOne (p q r : bool) : Prop :=
  (p = true /\ q = false /\ r = false) \/
  (p = false /\ q = true /\ r = false) \/
  (p = false /\ q = false /\ r = true).

(** Checks that are run on every day of a year, and on every day of
    every month. *)
Definition monthDay_ok (leap : bool) (yday : Z) : bool :=
  let '(m, d) := monthDay leap yday in
  (1 <=? m) && (m <=? 12) && (1 <=? d) && (d <=? daysInMonth leap m)
  && (yearDay leap m d =? yday).

Definition yearDay_ok (leap : bool) (m0 d0 : Z) : bool :=
  let m := m0 + 1 in
  let d := d0 + 1 in
  if d <=? daysInMonth leap m then
    (0 <=? yearDay leap m d) && (yearDay leap m d <? 365 + leapDay leap)
    && (let '(m', d') := monthDay leap (yearDay leap m d) in (m' =? m) && (d' =? d))
  else true.

(** The last day of a month is followed by the first day of the next. *)
Definition monthEnd_ok (leap : bool) (m0 : Z) : bool :=
  yearDay leap (m0 + 1) (daysInMonth leap (m0 + 1)) =? yearDay leap (m0 + 2) 0.

(** Arguments well inside the range in which [time.Date] computes
    without leaving its 64-bit types (see [Date_within_64_bits]): each
    of the year, the month and the day is at most [2^32] in absolute
    value.  Every [int32] offset added to a decoded date stays inside
    it. *)
Definition smallInt (x : Z) : Prop := - 2 ^ 32 <= x <= 2 ^ 32.

Definition dateArgs (year month day : Z) : Prop :=
  smallInt year /\ smallInt month /\ smallInt day.

(** A character of a formatted date: a digit or a hyphen. *)
Definition dateChar (c : ascii) : bool := isDigitChar c || (c =? "-")%char.

(** What comes back from the database for a value that [Value] wrote:
    the string or the instant itself. *)
Definition driverToScan (v : DriverValue) : ScanValue :=
  match v with
  | DVString s => SVString s
  | DVTime t => SVTime t
  end.

(** Within a year, an earlier month and day has the smaller day of the
    year; checked on every pair of days. *)
Definition yearDay_lt_ok (leap : bool) (m1 d1 m2 d2 : Z) : bool :=
  if (d1 + 1 <=? daysInMonth leap (m1 + 1)) && (d2 + 1 <=? daysInMonth leap (m2 + 1))
     && ((m1 <? m2) || ((m1 =? m2) && (d1 <? d2)))
  then yearDay leap (m1 + 1) (d1 + 1) <? yearDay leap (m2 + 1) (d2 + 1)
  else true.

(* ================================================================= *)
(** ** Checking a property on a range of integers by computation *)

Section Ranges.

Lemma upto_forallb (P : Z -> bool) (n : nat) :
  forallb P (upto n) = true ->
  forall z, 0 <= z < Z.of_nat n -> P z = true.
Proof.
  intros H z Hz. rewrite forallb_forall in H. apply H.
  unfold upto. apply in_map_iff. exists (Z.to_nat z). split.
  - lia.
  - apply in_seq. lia.
Qed.

End Ranges.

(* ================================================================= *)
(** ** The calendar of package [time] *)

Section Calendar.

Ltac Zify.zify_post_hook ::= Z.to_euclidean_division_equations.

Ltac booleans := cbn [andb orb negb] in *.

(** Go's truncated remainder and the floored one agree on whether a
    number is a multiple. *)
Lemma isLeap_mod (year : Z) :
  isLeap year =
  (year mod 4 =? 0) && (negb (year mod 100 =? 0) || (year mod 400 =? 0)).
Proof.
  unfold isLeap.
  repeat match goal with
  | |- context [Z.rem ?a ?b =? 0] =>
      replace (Z.rem a b =? 0) with (a mod b =? 0)
        by (destruct (Z.eqb_spec (a mod b) 0), (Z.eqb_spec (Z.rem a b) 0);
            try reflexivity; exfalso; lia)
  end.
  reflexivity.
Qed.

(** A year counted from the absolute epoch is [400a + 100b + 4c + e];
    it is a leap year when it is the last of its group of four, and
    then not the last of its century unless the century is the last
    of its group of four. *)
Lemma isLeap_split (a b c e : Z) :
  0 <= b <= 3 -> 0 <= c <= 24 -> 0 <= e <= 3 ->
  isLeap (400 * a + 100 * b + 4 * c + e + absoluteZeroYear)
  = (e =? 3) && (negb (c =? 24) || (b =? 3)).
Proof.
  intros Hb Hc He. rewrite isLeap_mod. unfold absoluteZeroYear.
  set (y := 400 * a + 100 * b + 4 * c + e + -292277022399).
  assert (H4 : y mod 4 = (e + 1) mod 4) by (subst y; lia).
  assert (H100 : y mod 100 = (4 * c + e + 1) mod 100) by (subst y; lia).
  assert (H400 : y mod 400 = (100 * b + 4 * c + e + 1) mod 400) by (subst y; lia).
  rewrite H4, H100, H400.
  destruct (Z.eqb_spec e 3), (Z.eqb_spec c 24), (Z.eqb_spec b 3); booleans;
    repeat match goal with
    | |- context [?x =? 0] => destruct (Z.eqb_spec x 0); booleans
    end;
    try reflexivity; exfalso; lia.
Qed.

(** The year and the day of the year that [absDate] finds add up to the
    day it was given, and the day of the year lies within the year. *)
Lemma absYearDay_spec (D s : Z) :
  0 <= D -> 0 <= s < 86400 ->
  daysSinceEpoch (fst (absYearDay (D * 86400 + s)))
    + snd (absYearDay (D * 86400 + s)) = D /\
  0 <= snd (absYearDay (D * 86400 + s))
    < 365 + leapDay (isLeap (fst (absYearDay (D * 86400 + s)))).
Proof.
  intros HD Hs. unfold leapDay, absYearDay, secondsPerDay,
    daysPer400Years, daysPer100Years, daysPer4Years.
  rewrite !Z.shiftr_div_pow2 by lia. change (2 ^ 2) with 4.
  replace ((D * 86400 + s) / 86400) with D by lia.
  change (365 * 400 + 97) with 146097. change (365 * 100 + 24) with 36524.
  change (365 * 4 + 1) with 1461.
  cbn [fst snd].
  set (a := D / 146097).
  set (d1 := D - 146097 * a).
  assert (Hd1 : 0 <= d1 < 146097) by (subst d1 a; lia).
  set (q := d1 / 36524).
  set (b := q - q / 4).
  assert (Hb : 0 <= b <= 3) by (subst b q; lia).
  set (d2 := d1 - 36524 * b).
  assert (Hd2 : 0 <= d2 < 36524 + (if b =? 3 then 1 else 0)).
  { subst d2 b q. destruct (Z.eqb_spec (d1 / 36524 - d1 / 36524 / 4) 3); lia. }
  set (c := d2 / 1461).
  assert (Hc : 0 <= c <= 24) by (subst c; destruct (b =? 3); lia).
  set (d3 := d2 - 1461 * c).
  assert (Hd3 : 0 <= d3 < 1461 - (if (c =? 24) && negb (b =? 3) then 1 else 0)).
  { subst d3 c. destruct (Z.eqb_spec b 3), (Z.eqb_spec (d2 / 1461) 24);
      booleans; lia. }
  set (q1 := d3 / 365).
  set (e := q1 - q1 / 4).
  assert (He : 0 <= e <= 3)
    by (subst e q1; destruct ((c =? 24) && negb (b =? 3)); lia).
  set (d4 := d3 - 365 * e).
  assert (Hd4 : 0 <= d4 <
            365 + (if (e =? 3) && (negb (c =? 24) || (b =? 3)) then 1 else 0)).
  { subst d4 e q1.
    destruct (Z.eqb_spec b 3), (Z.eqb_spec c 24),
      (Z.eqb_spec (d3 / 365 - d3 / 365 / 4) 3); booleans; lia. }
  rewrite isLeap_split by assumption. split; [|exact Hd4].
  unfold daysSinceEpoch, daysPer400Years, daysPer100Years, daysPer4Years.
  replace (400 * a + 100 * b + 4 * c + e + absoluteZeroYear - absoluteZeroYear)
    with (400 * a + 100 * b + 4 * c + e) by lia.
  change (365 * 400 + 97) with 146097. change (365 * 100 + 24) with 36524.
  change (365 * 4 + 1) with 1461.
  replace ((400 * a + 100 * b + 4 * c + e) / 400) with a by lia.
  replace (400 * a + 100 * b + 4 * c + e - 400 * a)
    with (100 * b + 4 * c + e) by lia.
  replace ((100 * b + 4 * c + e) / 100) with b by lia.
  replace (100 * b + 4 * c + e - 100 * b) with (4 * c + e) by lia.
  replace ((4 * c + e) / 4) with c by lia.
  subst d4 d3 d2 d1. lia.
Qed.

(** Conversely [absDate] finds every day of every year. *)
Lemma absYearDay_inv (year yday s : Z) :
  absoluteZeroYear <= year ->
  0 <= yday < 365 + leapDay (isLeap year) ->
  0 <= s < 86400 ->
  absYearDay ((daysSinceEpoch year + yday) * 86400 + s) = (year, yday).
Proof.
  unfold leapDay. intros Hy Hyd Hs.
  set (Y := year - absoluteZeroYear).
  set (a := Y / 400).
  set (b := (Y - 400 * a) / 100).
  set (c := (Y - 400 * a - 100 * b) / 4).
  set (e := Y - 400 * a - 100 * b - 4 * c).
  assert (Hb : 0 <= b <= 3) by (subst b a; lia).
  assert (Hc : 0 <= c <= 24) by (subst c b a; lia).
  assert (He : 0 <= e <= 3) by (subst e c b a; lia).
  assert (HY : year = 400 * a + 100 * b + 4 * c + e + absoluteZeroYear)
    by (subst e Y; lia).
  assert (Hdse : daysSinceEpoch year
                 = 146097 * a + 36524 * b + 1461 * c + 365 * e).
  { unfold daysSinceEpoch, daysPer400Years, daysPer100Years, daysPer4Years.
    fold Y. fold a. fold b. fold c. fold e. lia. }
  rewrite HY in Hyd. rewrite isLeap_split in Hyd by assumption.
  rewrite Hdse.
  unfold absYearDay, secondsPerDay, daysPer400Years, daysPer100Years,
    daysPer4Years.
  rewrite !Z.shiftr_div_pow2 by lia. change (2 ^ 2) with 4.
  change (365 * 400 + 97) with 146097. change (365 * 100 + 24) with 36524.
  change (365 * 4 + 1) with 1461.
  set (D := 146097 * a + 36524 * b + 1461 * c + 365 * e + yday).
  replace ((D * 86400 + s) / 86400) with D by lia.
  assert (Hr : 0 <= 36524 * b + 1461 * c + 365 * e + yday < 146097).
  { destruct (Z.eqb_spec e 3), (Z.eqb_spec c 24), (Z.eqb_spec b 3);
      booleans; lia. }
  replace (D / 146097) with a by (subst D; lia).
  replace (D - 146097 * a) with (36524 * b + 1461 * c + 365 * e + yday)
    by (subst D; lia).
  set (d1 := 36524 * b + 1461 * c + 365 * e + yday).
  assert (Hr2 : 0 <= 1461 * c + 365 * e + yday
                < 36524 + (if b =? 3 then 1 else 0)).
  { destruct (Z.eqb_spec e 3), (Z.eqb_spec c 24), (Z.eqb_spec b 3);
      booleans; lia. }
  assert (Hq : d1 / 36524 - d1 / 36524 / 4 = b).
  { subst d1. destruct (Z.eqb_spec b 3); lia. }
  rewrite Hq.
  replace (d1 - 36524 * b) with (1461 * c + 365 * e + yday) by (subst d1; lia).
  set (d2 := 1461 * c + 365 * e + yday).
  assert (Hr3 : 0 <= 365 * e + yday < 1461).
  { destruct (Z.eqb_spec e 3), (Z.eqb_spec c 24), (Z.eqb_spec b 3);
      booleans; lia. }
  replace (d2 / 1461) with c by (subst d2; lia).
  replace (d2 - 1461 * c) with (365 * e + yday) by (subst d2; lia).
  set (d3 := 365 * e + yday).
  assert (Hq1 : d3 / 365 - d3 / 365 / 4 = e).
  { subst d3. destruct (Z.eqb_spec e 3), (Z.eqb_spec c 24), (Z.eqb_spec b 3);
      booleans; lia. }
  rewrite Hq1. f_equal; subst d3; lia.
Qed.

Lemma monthDay_spec (leap : bool) (yday : Z) :
  0 <= yday < 365 + leapDay leap ->
  1 <= fst (monthDay leap yday) <= 12 /\
  1 <= snd (monthDay leap yday) <= daysInMonth leap (fst (monthDay leap yday)) /\
  yearDay leap (fst (monthDay leap yday)) (snd (monthDay leap yday)) = yday.
Proof.
  intros H.
  assert (Hok : monthDay_ok leap yday = true).
  { destruct leap; unfold leapDay in H.
    - apply (upto_forallb (monthDay_ok true) 366); [vm_compute; reflexivity | lia].
    - apply (upto_forallb (monthDay_ok false) 365); [vm_compute; reflexivity | lia]. }
  unfold monthDay_ok in Hok. destruct (monthDay leap yday) as [m d]. cbn [fst snd].
  rewrite !andb_true_iff in Hok. lia.
Qed.

Lemma yearDay_ok_all (leap : bool) (m0 d0 : Z) :
  0 <= m0 < 12 -> 0 <= d0 < 31 -> yearDay_ok leap m0 d0 = true.
Proof.
  intros Hm Hd.
  assert (H : forallb (fun m => forallb (yearDay_ok leap m) (upto 31)) (upto 12)
              = true)
    by (destruct leap; vm_compute; reflexivity).
  pose proof (upto_forallb _ _ H m0 Hm) as H1. cbv beta in H1.
  exact (upto_forallb _ _ H1 d0 Hd).
Qed.

Lemma daysInMonth_le_31 (leap : bool) (m : Z) :
  1 <= m <= 12 -> 28 <= daysInMonth leap m <= 31.
Proof.
  intros Hm.
  assert (H : forallb (fun m0 => (28 <=? daysInMonth leap (m0 + 1))
                                 && (daysInMonth leap (m0 + 1) <=? 31))
                (upto 12) = true)
    by (destruct leap; vm_compute; reflexivity).
  pose proof (upto_forallb _ _ H (m - 1) ltac:(lia)) as H1. cbv beta in H1.
  replace (m - 1 + 1) with m in H1 by lia. lia.
Qed.

Lemma yearDay_spec (leap : bool) (m d : Z) :
  1 <= m <= 12 -> 1 <= d <= daysInMonth leap m ->
  0 <= yearDay leap m d < 365 + leapDay leap /\
  monthDay leap (yearDay leap m d) = (m, d).
Proof.
  intros Hm Hd. pose proof (daysInMonth_le_31 leap m Hm) as H31.
  pose proof (yearDay_ok_all leap (m - 1) (d - 1) ltac:(lia) ltac:(lia)) as Hok.
  unfold yearDay_ok in Hok. replace (m - 1 + 1) with m in Hok by lia.
  replace (d - 1 + 1) with d in Hok by lia.
  replace (d <=? daysInMonth leap m) with true in Hok by lia.
  destruct (monthDay leap (yearDay leap m d)) as [m' d'].
  rewrite !andb_true_iff in Hok. split; [lia|]. f_equal; lia.
Qed.

(** *** [norm] and [time.Date] *)

Lemma norm_12 (hi lo : Z) : norm hi lo 12 = (hi + lo / 12, lo mod 12).
Proof.
  unfold norm.
  destruct (Z.ltb_spec lo 0).
  - replace (12 <=? lo + (Z.quot (- lo - 1) 12 + 1) * 12) with false by lia.
    f_equal; lia.
  - destruct (Z.leb_spec 12 lo); f_equal; lia.
Qed.

Lemma dateToAbsDays_norm (year month day : Z) :
  dateToAbsDays year month day
  = daysSinceEpoch (year + (month - 1) / 12)
    + yearDay (isLeap (year + (month - 1) / 12)) ((month - 1) mod 12 + 1) day.
Proof.
  unfold dateToAbsDays, yearDay. rewrite norm_12.
  replace ((month - 1) mod 12 + 1 - 1) with ((month - 1) mod 12) by lia.
  destruct (isLeap _ && _); lia.
Qed.

Lemma dateToAbsDays_valid (year month day : Z) :
  1 <= month <= 12 ->
  dateToAbsDays year month day
  = daysSinceEpoch year + yearDay (isLeap year) month day.
Proof.
  intros Hm. rewrite dateToAbsDays_norm.
  replace ((month - 1) / 12) with 0 by lia.
  replace ((month - 1) mod 12 + 1) with month by lia.
  rewrite Z.add_0_r. reflexivity.
Qed.

(** [absDate] names a day that exists, and [time.Date] takes it back. *)
Lemma absDate_spec (D s : Z) :
  0 <= D -> 0 <= s < 86400 ->
  forall year month day, absDate (D * 86400 + s) = (year, month, day) ->
  validDate year month day /\ dateToAbsDays year month day = D.
Proof.
  intros HD Hs year month day. unfold absDate.
  pose proof (absYearDay_spec D s HD Hs) as [Hsum Hyd].
  destruct (absYearDay (D * 86400 + s)) as [y yd]. cbn [fst snd] in *.
  pose proof (monthDay_spec (isLeap y) yd Hyd) as (Hm & Hd & Hday).
  destruct (monthDay (isLeap y) yd) as [m d]. cbn [fst snd] in *.
  intros E. injection E as <- <- <-.
  split; [split; [exact Hm | exact Hd] |].
  rewrite dateToAbsDays_valid by exact Hm. lia.
Qed.

(** [absDate] finds the year, month and day of every existing day. *)
Lemma absDate_inv (year month day s : Z) :
  absoluteZeroYear <= year -> validDate year month day -> 0 <= s < 86400 ->
  absDate (dateToAbsDays year month day * 86400 + s) = (year, month, day).
Proof.
  intros Hy [Hm Hd] Hs. rewrite dateToAbsDays_valid by exact Hm.
  pose proof (yearDay_spec (isLeap year) month day Hm Hd) as [Hyd Hmd].
  unfold absDate. rewrite absYearDay_inv by assumption.
  rewrite Hmd. reflexivity.
Qed.

(** *** From one year to the next *)

Lemma daysSinceEpoch_closed (year : Z) :
  daysSinceEpoch year
  = 365 * (year - absoluteZeroYear)
    + (year - absoluteZeroYear) / 4 - (year - absoluteZeroYear) / 100
    + (year - absoluteZeroYear) / 400.
Proof.
  unfold daysSinceEpoch, daysPer400Years, daysPer100Years, daysPer4Years.
  set (Y := year - absoluteZeroYear). lia.
Qed.

Lemma daysSinceEpoch_step (year : Z) :
  daysSinceEpoch (year + 1) = daysSinceEpoch year + 365 + leapDay (isLeap year).
Proof.
  rewrite !daysSinceEpoch_closed, isLeap_mod. unfold leapDay, absoluteZeroYear.
  destruct (Z.eqb_spec (year mod 4) 0), (Z.eqb_spec (year mod 100) 0),
    (Z.eqb_spec (year mod 400) 0); booleans; lia.
Qed.

Lemma daysSinceEpoch_mono (y1 y2 : Z) :
  y1 <= y2 -> daysSinceEpoch y1 <= daysSinceEpoch y2.
Proof.
  intros H. rewrite !daysSinceEpoch_closed.
  set (Y1 := y1 - absoluteZeroYear). set (Y2 := y2 - absoluteZeroYear).
  assert (HY : Y1 <= Y2) by (subst Y1 Y2; lia).
  clearbody Y1 Y2. clear H.
  assert (H4 : Y1 / 4 - Y1 / 100 <= Y2 / 4 - Y2 / 100) by lia.
  assert (H400 : Y1 / 400 <= Y2 / 400) by lia.
  lia.
Qed.

(** *** Days since 1970 *)

Lemma epochAbsDays_seconds :
  unixToInternal + internalToAbsolute = epochAbsDays * 86400.
Proof. reflexivity. Qed.

Lemma wrap32_id (x : Z) : in_int32 x -> wrap32 x = x.
Proof. unfold in_int32, wrap32, MinInt32, MaxInt32. lia. Qed.

Lemma wrap32_range (x : Z) : in_int32 (wrap32 x).
Proof. unfold in_int32, wrap32, MinInt32, MaxInt32. lia. Qed.

Lemma NewLocalDate_epochDay (year month day : Z) :
  NewLocalDate year month day = mkLocalDate (wrap32 (epochDay year month day)) true.
Proof.
  unfold NewLocalDate, Date, Unix, epochDay. cbn [unixSec]. do 2 f_equal.
  replace (dateToAbsDays year month day * secondsPerDay
           + (absoluteToInternal + internalToUnix))
    with ((dateToAbsDays year month day - epochAbsDays) * 86400).
  - apply Z.quot_mul. lia.
  - unfold secondsPerDay.
    assert (absoluteToInternal + internalToUnix = - (epochAbsDays * 86400))
      by reflexivity.
    lia.
Qed.

Lemma Time_not_infinity (d : LocalDate) :
  Days d <> daysInfinity -> Time d = mkTime (Days d * 86400) 0 0.
Proof.
  intros H. unfold Time, IsInfinity.
  destruct (Z.eqb_spec (Days d) daysInfinity); [contradiction | reflexivity].
Qed.

Lemma DateOf_Time (d : LocalDate) :
  Days d <> daysInfinity ->
  DateOf (Time d) = absDate ((Days d + epochAbsDays) * 86400 + 0).
Proof.
  intros H. rewrite Time_not_infinity by exact H.
  unfold DateOf, abs. cbn [unixSec zoneOffset]. rewrite epochAbsDays_seconds.
  f_equal. lia.
Qed.

Lemma epochAbsDays_int32 (n : Z) : in_int32 n -> 0 <= n + epochAbsDays.
Proof.
  unfold in_int32, MinInt32. intros H.
  assert (epochAbsDays = 106751991073094) by reflexivity. lia.
Qed.

(** The calendar date of a date that is not positive infinity exists,
    and [NewLocalDate] maps it back to the same day count. *)
Lemma DateOf_Time_spec (d : LocalDate) (year month day : Z) :
  wf d -> Days d <> daysInfinity ->
  DateOf (Time d) = (year, month, day) ->
  validDate year month day /\ epochDay year month day = Days d.
Proof.
  intros Hwf Hinf E. rewrite DateOf_Time in E by exact Hinf.
  apply absDate_spec in E; [| apply epochAbsDays_int32; exact Hwf | lia].
  destruct E as [Hv Habs]. split; [exact Hv|]. unfold epochDay. lia.
Qed.

Lemma DateOf_Time_year (d : LocalDate) (year month day : Z) :
  -719528 <= Days d <= 2932896 ->
  DateOf (Time d) = (year, month, day) ->
  0 <= year <= 9999.
Proof.
  intros Hr E.
  rewrite DateOf_Time in E by (unfold daysInfinity, MaxInt32; lia).
  unfold absDate in E.
  pose proof (absYearDay_spec (Days d + epochAbsDays) 0) as H.
  assert (HE : epochAbsDays = 106751991073094) by reflexivity.
  specialize (H ltac:(lia) ltac:(lia)). destruct H as [Hsum Hyd].
  destruct (absYearDay ((Days d + epochAbsDays) * 86400 + 0)) as [y yd].
  cbn [fst snd] in *. destruct (monthDay (isLeap y) yd) as [m dd].
  injection E as <- <- <-.
  assert (H0 : daysSinceEpoch 0 = epochAbsDays - 719528) by reflexivity.
  assert (H1 : daysSinceEpoch 10000 = epochAbsDays + 2932897) by reflexivity.
  split.
  - destruct (Z_lt_le_dec y 0) as [Hlt|]; [|assumption]. exfalso.
    pose proof (daysSinceEpoch_step y) as Hs.
    pose proof (daysSinceEpoch_mono (y + 1) 0 ltac:(lia)). lia.
  - destruct (Z_lt_le_dec 9999 y) as [Hlt|]; [|assumption]. exfalso.
    pose proof (daysSinceEpoch_mono 10000 y ltac:(lia)). lia.
Qed.

End Calendar.

(* ================================================================= *)
(** ** Date texts *)

Section Text.

Ltac Zify.zify_post_hook ::= Z.to_euclidean_division_equations.

(** [time.Parse] fails with a [*time.ParseError] and nothing else. *)
Lemma Parse_error_kind (s : string) (e : error) :
  Parse_2006_01_02 s = Err e -> exists detail, e = TimeParseError detail.
Proof.
  unfold Parse_2006_01_02, parseErr.
  destruct (_ || _); [intros [= <-]; eauto|].
  destruct (atoi _) as [year|]; [|intros [= <-]; eauto].
  destruct (skipPrefix _ _) as [v1|]; [|intros [= <-]; eauto].
  destruct (getnum _ _) as [[month v2]|]; [|intros [= <-]; eauto].
  destruct (_ || _); [intros [= <-]; eauto|].
  destruct (skipPrefix _ _) as [v3|]; [|intros [= <-]; eauto].
  destruct (getnum _ _) as [[day v4]|]; [|intros [= <-]; eauto].
  destruct (_ <? _); [intros [= <-]; eauto|].
  destruct (_ || _); [intros [= <-]; eauto|]. discriminate.
Qed.

Lemma code_range (c : ascii) : 0 <= code c < 256.
Proof.
  unfold code. pose proof (N_ascii_bounded c). lia.
Qed.

Lemma code_chr (z : Z) : 0 <= z < 256 -> code (chr z) = z.
Proof.
  intros H. unfold code, chr. rewrite N_ascii_embedding by lia. lia.
Qed.

Lemma chr_code (c : ascii) : chr (code c) = c.
Proof. unfold code, chr. rewrite N2Z.id. apply ascii_N_embedding. Qed.

Lemma code_inj (c1 c2 : ascii) : code c1 = code c2 -> c1 = c2.
Proof. intros H. rewrite <- (chr_code c1), <- (chr_code c2), H. reflexivity. Qed.

Lemma isDigitChar_code (c : ascii) : isDigitChar c = true <-> 48 <= code c <= 57.
Proof. unfold isDigitChar. rewrite andb_true_iff. lia. Qed.

Lemma digit_spec (k : Z) :
  0 <= k <= 9 -> isDigitChar (digit k) = true /\ dig (digit k) = k.
Proof.
  intros H. unfold dig, digit. rewrite isDigitChar_code, code_chr by lia. lia.
Qed.

Lemma isDigitChar_not (c x : ascii) :
  isDigitChar c = true -> isDigitChar x = false -> (c =? x)%char = false.
Proof.
  intros Hc Hx. destruct (Ascii.eqb_spec c x); [congruence | reflexivity].
Qed.

Lemma leadingInt_digit (c : ascii) (r : string) (x : Z) :
  isDigitChar c = true -> 0 <= x <= 1000000 ->
  leadingInt (String c r) x = leadingInt r (x * 10 + dig c).
Proof.
  intros Hc Hx. cbn [leadingInt]. rewrite Hc.
  apply isDigitChar_code in Hc. unfold dig.
  assert (E : 2 ^ 63 / 10 = 922337203685477580) by reflexivity. rewrite E.
  replace (922337203685477580 <? x) with false by lia.
  assert (E2 : 2 ^ 63 = 9223372036854775808) by reflexivity. rewrite E2.
  replace (9223372036854775808 <? x * 10 + code c - 48) with false by lia.
  f_equal. lia.
Qed.

Lemma atoi4 (c0 c1 c2 c3 : ascii) :
  isDigitChar c0 = true ->
  atoi (String c0 (String c1 (String c2 (String c3 EmptyString))))
  = if isDigitChar c1 && isDigitChar c2 && isDigitChar c3
    then Some (((dig c0 * 10 + dig c1) * 10 + dig c2) * 10 + dig c3)
    else None.
Proof.
  intros H0. unfold atoi.
  rewrite (isDigitChar_not c0 "-" H0 eq_refl), (isDigitChar_not c0 "+" H0 eq_refl).
  pose proof (proj1 (isDigitChar_code c0) H0) as B0.
  rewrite leadingInt_digit by (assumption || lia).
  destruct (isDigitChar c1) eqn:H1; [| cbn [leadingInt andb]; rewrite H1; reflexivity].
  pose proof (proj1 (isDigitChar_code c1) H1) as B1.
  rewrite leadingInt_digit by (assumption || unfold dig; lia).
  destruct (isDigitChar c2) eqn:H2; [| cbn [leadingInt andb]; rewrite H2; reflexivity].
  pose proof (proj1 (isDigitChar_code c2) H2) as B2.
  rewrite leadingInt_digit by (assumption || unfold dig; lia).
  destruct (isDigitChar c3) eqn:H3; [| cbn [leadingInt andb]; rewrite H3; reflexivity].
  pose proof (proj1 (isDigitChar_code c3) H3) as B3.
  rewrite leadingInt_digit by (assumption || unfold dig; lia).
  cbn [leadingInt andb]. reflexivity.
Qed.

Lemma getnum_fixed (s : string) :
  getnum s true =
  match s with
  | String c0 (String c1 r) =>
      if isDigitChar c0 && isDigitChar c1
      then Some (dig c0 * 10 + dig c1, r) else None
  | _ => None
  end.
Proof.
  unfold getnum, isDigit, dig.
  destruct s as [|c0 [|c1 r]]; cbn [String.get negb].
  - reflexivity.
  - destruct (isDigitChar c0); reflexivity.
  - destruct (isDigitChar c0), (isDigitChar c1); reflexivity.
Qed.

Lemma skipPrefix_dash (s : string) :
  skipPrefix "-" s =
  match s with
  | String c r => if (c =? "-")%char then Some r else None
  | EmptyString => None
  end.
Proof.
  unfold skipPrefix. destruct s as [|c r]; [reflexivity|].
  cbn [String.prefix String.length drop].
  destruct (ascii_dec "-" c) as [<-|N].
  - destruct r; reflexivity.
  - destruct (Ascii.eqb_spec c "-"); [congruence | reflexivity].
Qed.

Lemma validDateb_spec (y m d : Z) : validDateb y m d = true <-> validDate y m d.
Proof. unfold validDateb, validDate. rewrite !andb_true_iff. lia. Qed.

Lemma Parse_of_fields (s : string) (y m d : Z) :
  dateFields s = Some (y, m, d) ->
  Parse_2006_01_02 s =
  if (m <=? 0) || (12 <? m) then parseErr ": month out of range"
  else if (d <? 1) || (daysIn m y <? d) then parseErr ": day out of range"
  else Ok (Date y m d).
Proof.
  destruct s as [|y1 [|y2 [|y3 [|y4 [|h1 [|m1 [|m2 [|h2 [|d1 [|d2 [|x r]]]]]]]]]]];
    try discriminate.
  cbn [dateFields].
  destruct (isDigitChar y1) eqn:Hy1; [|discriminate].
  destruct (isDigitChar y2) eqn:Hy2; [|discriminate].
  destruct (isDigitChar y3) eqn:Hy3; [|discriminate].
  destruct (isDigitChar y4) eqn:Hy4; [|discriminate].
  destruct (Ascii.eqb_spec h1 "-") as [->|]; [|discriminate].
  destruct (isDigitChar m1) eqn:Hm1; [|discriminate].
  destruct (isDigitChar m2) eqn:Hm2; [|discriminate].
  destruct (Ascii.eqb_spec h2 "-") as [->|]; [|discriminate].
  destruct (isDigitChar d1) eqn:Hd1; [|discriminate].
  destruct (isDigitChar d2) eqn:Hd2; [|discriminate].
  cbn [andb]. intros [= <- <- <-].
  unfold Parse_2006_01_02.
  cbn [len String.length Z.of_nat isDigit String.get take drop].
  rewrite Hy1. cbn [negb orb Pos.of_succ_nat Pos.succ Z.ltb Z.compare Pos.compare Pos.compare_cont].
  rewrite atoi4 by exact Hy1. rewrite Hy2, Hy3, Hy4. cbn [andb].
  rewrite skipPrefix_dash. cbn [Ascii.eqb Bool.eqb].
  rewrite getnum_fixed, Hm1, Hm2. cbn [andb].
  destruct ((dig m1 * 10 + dig m2 <=? 0) || (12 <? dig m1 * 10 + dig m2)); [reflexivity|].
  rewrite skipPrefix_dash. cbn [Ascii.eqb Bool.eqb].
  rewrite getnum_fixed, Hd1, Hd2. cbn [andb].
  reflexivity.
Qed.

Lemma Parse_Ok_fields (s : string) (t : GoTime.Time) :
  Parse_2006_01_02 s = Ok t -> exists y m d, dateFields s = Some (y, m, d).
Proof.
  unfold Parse_2006_01_02, parseErr.
  destruct s as [|y1 [|y2 [|y3 [|y4 r]]]]; try discriminate.
  replace (len (String y1 (String y2 (String y3 (String y4 r)))) <? 4) with false
    by (symmetry; apply Z.ltb_ge; unfold len; cbn [String.length]; lia).
  cbn [isDigit String.get take drop orb].
  destruct (isDigitChar y1) eqn:Hy1; [|discriminate]. cbn [negb].
  rewrite atoi4 by exact Hy1.
  destruct (isDigitChar y2) eqn:Hy2; [|discriminate].
  destruct (isDigitChar y3) eqn:Hy3; [|discriminate].
  destruct (isDigitChar y4) eqn:Hy4; [|discriminate]. cbn [andb].
  rewrite skipPrefix_dash. destruct r as [|h1 r]; [discriminate|].
  destruct (Ascii.eqb_spec h1 "-") as [->|]; [|discriminate].
  rewrite getnum_fixed. destruct r as [|m1 [|m2 r]]; try discriminate.
  destruct (isDigitChar m1) eqn:Hm1; [|discriminate].
  destruct (isDigitChar m2) eqn:Hm2; [|discriminate]. cbn [andb].
  destruct (_ || _); [discriminate|].
  rewrite skipPrefix_dash. destruct r as [|h2 r]; [discriminate|].
  destruct (Ascii.eqb_spec h2 "-") as [->|]; [|discriminate].
  rewrite getnum_fixed. destruct r as [|d1 [|d2 r]]; try discriminate.
  destruct (isDigitChar d1) eqn:Hd1; [|discriminate].
  destruct (isDigitChar d2) eqn:Hd2; [|discriminate]. cbn [andb].
  destruct r as [|x r].
  - intros _. cbn [dateFields]. rewrite Hy1, Hy2, Hy3, Hy4, Hm1, Hm2, Hd1, Hd2.
    cbn. eauto.
  - replace (0 <? len (String x r)) with true
      by (symmetry; apply Z.ltb_lt; unfold len; cbn [String.length]; lia).
    discriminate.
Qed.

Lemma appendInt_4 (y : Z) :
  0 <= y <= 9999 ->
  appendInt y 4 =
  String (digit (y / 100 / 10)) (String (digit (y / 100 mod 10))
    (String (digit (y mod 100 / 10)) (String (digit (y mod 100 mod 10)) EmptyString))).
Proof.
  intros H. unfold appendInt.
  replace (y <? 0) with false by (symmetry; apply Z.ltb_ge; lia).
  rewrite Z.abs_eq by lia.
  replace (y <? 10000) with true by (symmetry; apply Z.ltb_lt; lia).
  reflexivity.
Qed.

Lemma appendInt_2 (x : Z) :
  0 <= x <= 99 ->
  appendInt x 2 = String (digit (x / 10)) (String (digit (x mod 10)) EmptyString).
Proof.
  intros H. unfold appendInt.
  replace (x <? 0) with false by (symmetry; apply Z.ltb_ge; lia).
  rewrite Z.abs_eq by lia.
  replace (x <? 100) with true by (symmetry; apply Z.ltb_lt; lia).
  reflexivity.
Qed.

Lemma Format_fmtDate (t : GoTime.Time) (y m d : Z) :
  DateOf t = (y, m, d) -> 0 <= y <= 9999 -> 0 <= m <= 99 -> 0 <= d <= 99 ->
  Format_2006_01_02 t = fmtDate y m d.
Proof.
  intros E Hy Hm Hd. unfold Format_2006_01_02. rewrite E.
  rewrite appendInt_4, !appendInt_2 by assumption. reflexivity.
Qed.

Lemma dateFields_fmtDate (y m d : Z) :
  0 <= y <= 9999 -> 0 <= m <= 99 -> 0 <= d <= 99 ->
  dateFields (fmtDate y m d) = Some (y, m, d).
Proof.
  intros Hy Hm Hd. unfold fmtDate, dateFields.
  destruct (digit_spec (y / 100 / 10)) as [-> ->]; [lia|].
  destruct (digit_spec (y / 100 mod 10)) as [-> ->]; [lia|].
  destruct (digit_spec (y mod 100 / 10)) as [-> ->]; [lia|].
  destruct (digit_spec (y mod 100 mod 10)) as [-> ->]; [lia|].
  destruct (digit_spec (m / 10)) as [-> ->]; [lia|].
  destruct (digit_spec (m mod 10)) as [-> ->]; [lia|].
  destruct (digit_spec (d / 10)) as [-> ->]; [lia|].
  destruct (digit_spec (d mod 10)) as [-> ->]; [lia|].
  cbn [andb Ascii.eqb Bool.eqb]. do 2 f_equal; [f_equal|]; lia.
Qed.

Lemma plainChar_code (c : ascii) :
  plainChar c = true <->
  32 <= code c < 128 /\ code c <> 34 /\ code c <> 38 /\ code c <> 60
  /\ code c <> 62 /\ code c <> 92.
Proof.
  unfold plainChar, Json.htmlSafe.
  rewrite !andb_true_iff, negb_true_iff, !orb_false_iff. lia.
Qed.

Lemma appendStringBody_plain (s : string) :
  forallb plainChar (list_ascii_of_string s) = true -> Json.appendStringBody s = s.
Proof.
  induction s as [|c r IH]; [reflexivity|].
  cbn [list_ascii_of_string forallb]. rewrite andb_true_iff. intros [Hc Hr].
  cbn [Json.appendStringBody].
  pose proof (proj1 (plainChar_code c) Hc) as B.
  replace (code c <? 128) with true by (symmetry; apply Z.ltb_lt; lia).
  unfold plainChar in Hc. apply andb_true_iff in Hc. destruct Hc as [-> _].
  rewrite IH by exact Hr. reflexivity.
Qed.

Lemma unquoteBody_plain (s rest : string) :
  forallb plainChar (list_ascii_of_string s) = true ->
  Json.unquoteBody (s ++ String Json.quote rest) = Some (s, rest).
Proof.
  induction s as [|c r IH].
  - intros _. reflexivity.
  - cbn [list_ascii_of_string forallb]. rewrite andb_true_iff. intros [Hc Hr].
    pose proof (proj1 (plainChar_code c) Hc) as B.
    cbn [append Json.unquoteBody].
    replace (c =? Json.quote)%char with false.
    2:{ symmetry. apply Ascii.eqb_neq. intros ->. vm_compute in B. lia. }
    replace (c =? Json.backslash)%char with false.
    2:{ symmetry. apply Ascii.eqb_neq. intros ->. vm_compute in B. lia. }
    replace (code c <? 32) with false by (symmetry; apply Z.ltb_ge; lia).
    replace (code c <? 128) with true by (symmetry; apply Z.ltb_lt; lia).
    rewrite IH by exact Hr. reflexivity.
Qed.

Lemma UnmarshalString_quoted (s : string) :
  forallb plainChar (list_ascii_of_string s) = true ->
  Json.UnmarshalString (Json.quoted s) = Ok s.
Proof.
  intros H. unfold Json.UnmarshalString, Json.quoted.
  change (Json.skipSpace (String Json.quote (s ++ String Json.quote EmptyString)))
    with (String Json.quote (s ++ String Json.quote EmptyString)).
  cbv beta iota. rewrite Ascii.eqb_refl, unquoteBody_plain by exact H. reflexivity.
Qed.

Lemma MarshalString_plain (s : string) :
  forallb plainChar (list_ascii_of_string s) = true ->
  Json.MarshalString s = Json.quoted s.
Proof.
  intros H. unfold Json.MarshalString, Json.quoted.
  rewrite appendStringBody_plain by exact H. reflexivity.
Qed.

Lemma isDigitChar_plain (c : ascii) : isDigitChar c = true -> plainChar c = true.
Proof. rewrite isDigitChar_code, plainChar_code. lia. Qed.

Lemma dateFields_plain (s : string) (y m d : Z) :
  dateFields s = Some (y, m, d) ->
  forallb plainChar (list_ascii_of_string s) = true.
Proof.
  destruct s as [|y1 [|y2 [|y3 [|y4 [|h1 [|m1 [|m2 [|h2 [|d1 [|d2 [|x r]]]]]]]]]]];
    try discriminate.
  cbn [dateFields].
  destruct (isDigitChar y1) eqn:Hy1; [|discriminate].
  destruct (isDigitChar y2) eqn:Hy2; [|discriminate].
  destruct (isDigitChar y3) eqn:Hy3; [|discriminate].
  destruct (isDigitChar y4) eqn:Hy4; [|discriminate].
  destruct (Ascii.eqb_spec h1 "-") as [->|]; [|discriminate].
  destruct (isDigitChar m1) eqn:Hm1; [|discriminate].
  destruct (isDigitChar m2) eqn:Hm2; [|discriminate].
  destruct (Ascii.eqb_spec h2 "-") as [->|]; [|discriminate].
  destruct (isDigitChar d1) eqn:Hd1; [|discriminate].
  destruct (isDigitChar d2) eqn:Hd2; [|discriminate].
  intros _. cbn [list_ascii_of_string forallb].
  rewrite (isDigitChar_plain y1 Hy1), (isDigitChar_plain y2 Hy2),
    (isDigitChar_plain y3 Hy3), (isDigitChar_plain y4 Hy4),
    (isDigitChar_plain m1 Hm1), (isDigitChar_plain m2 Hm2),
    (isDigitChar_plain d1 Hd1), (isDigitChar_plain d2 Hd2).
  reflexivity.
Qed.

Lemma abs_Date (y m d : Z) : abs (Date y m d) = dateToAbsDays y m d * 86400 + 0.
Proof.
  unfold abs, Date. cbn [unixSec zoneOffset]. unfold secondsPerDay.
  assert (absoluteToInternal + internalToUnix + 0
          + (unixToInternal + internalToAbsolute) = 0) by reflexivity.
  lia.
Qed.

Lemma DateOf_Date (y m d : Z) :
  absoluteZeroYear <= y -> validDate y m d -> DateOf (Date y m d) = (y, m, d).
Proof.
  intros Hy Hv. unfold DateOf. rewrite abs_Date.
  apply absDate_inv; [assumption | assumption | lia].
Qed.

Lemma dateFields_year (s : string) (y m d : Z) :
  dateFields s = Some (y, m, d) -> 0 <= y <= 9999 /\ 0 <= m <= 99 /\ 0 <= d <= 99.
Proof.
  destruct s as [|y1 [|y2 [|y3 [|y4 [|h1 [|m1 [|m2 [|h2 [|d1 [|d2 [|x r]]]]]]]]]]];
    try discriminate.
  cbn [dateFields].
  destruct (isDigitChar y1) eqn:Hy1; [|discriminate].
  destruct (isDigitChar y2) eqn:Hy2; [|discriminate].
  destruct (isDigitChar y3) eqn:Hy3; [|discriminate].
  destruct (isDigitChar y4) eqn:Hy4; [|discriminate].
  destruct (h1 =? "-")%char; [|discriminate].
  destruct (isDigitChar m1) eqn:Hm1; [|discriminate].
  destruct (isDigitChar m2) eqn:Hm2; [|discriminate].
  destruct (h2 =? "-")%char; [|discriminate].
  destruct (isDigitChar d1) eqn:Hd1; [|discriminate].
  destruct (isDigitChar d2) eqn:Hd2; [|discriminate].
  cbn [andb]. intros [= <- <- <-].
  apply isDigitChar_code in Hy1, Hy2, Hy3, Hy4, Hm1, Hm2, Hd1, Hd2.
  unfold dig. lia.
Qed.

(** The default branch of the decoders: a date text is parsed and the
    fields of the parsed instant are handed to [NewLocalDate]. *)
Lemma Parse_valid (s : string) (y m d : Z) :
  dateFields s = Some (y, m, d) -> validDate y m d ->
  Parse_2006_01_02 s = Ok (Date y m d) /\ DateOf (Date y m d) = (y, m, d).
Proof.
  intros Hf Hv. pose proof (dateFields_year s y m d Hf) as (Hy & _ & _).
  split.
  - rewrite (Parse_of_fields s y m d Hf). destruct Hv as [Hm Hd].
    replace ((m <=? 0) || (12 <? m)) with false
      by (symmetry; apply orb_false_iff; lia).
    replace ((d <? 1) || (daysIn m y <? d)) with false
      by (symmetry; apply orb_false_iff; lia).
    reflexivity.
  - apply DateOf_Date; [unfold absoluteZeroYear; lia | exact Hv].
Qed.

Lemma Parse_invalid (s : string) (y m d : Z) :
  dateFields s = Some (y, m, d) -> ~ validDate y m d ->
  exists detail, Parse_2006_01_02 s = Err (TimeParseError detail).
Proof.
  intros Hf Hv. rewrite (Parse_of_fields s y m d Hf). unfold parseErr.
  destruct ((m <=? 0) || (12 <? m)) eqn:E1; [eauto|].
  destruct ((d <? 1) || (daysIn m y <? d)) eqn:E2; [eauto|].
  exfalso. apply Hv. apply orb_false_iff in E1, E2. unfold validDate. lia.
Qed.

Lemma Parse_no_fields (s : string) :
  dateFields s = None -> exists detail, Parse_2006_01_02 s = Err (TimeParseError detail).
Proof.
  intros Hf. destruct (Parse_2006_01_02 s) as [t | e] eqn:E.
  - apply Parse_Ok_fields in E. destruct E as (y & m & d & E). congruence.
  - apply Parse_error_kind in E. destruct E as [detail ->]. eauto.
Qed.

Lemma epochDay_range (y m d : Z) :
  0 <= y <= 9999 -> validDate y m d -> -719528 <= epochDay y m d <= 2932896.
Proof.
  intros Hy [Hm Hd]. unfold epochDay. rewrite dateToAbsDays_valid by exact Hm.
  pose proof (yearDay_spec (isLeap y) m d Hm Hd) as [Hyd _].
  pose proof (daysSinceEpoch_mono 0 y ltac:(lia)) as H0.
  pose proof (daysSinceEpoch_mono (y + 1) 10000 ltac:(lia)) as H1.
  rewrite daysSinceEpoch_step in H1.
  assert (E0 : daysSinceEpoch 0 = epochAbsDays - 719528) by reflexivity.
  assert (E1 : daysSinceEpoch 10000 = epochAbsDays + 2932897) by reflexivity.
  lia.
Qed.

End Text.

(* ================================================================= *)
(** ** Comparison *)

Section Comparison.

Lemma IsEqual_eq (a b : LocalDate) : IsEqual a b = true <-> a = b.
Proof.
  unfold IsEqual. rewrite andb_true_iff, Z.eqb_eq, eqb_true_iff.
  destruct a, b; cbn. split.
  - intros [-> ->]. reflexivity.
  - intros E. injection E as -> ->. split; reflexivity.
Qed.

(** C2, as the code has it: [IsEqual] is the equality of the whole
    value, flag included, while [IsBefore] and [IsAfter] read the day
    counts alone.  Two values with the same [Valid] flag satisfy
    exactly one of the three; negative infinity is before every other
    day count and positive infinity after every other one. *)
Theorem comparisons_total_order (a b : LocalDate) :
  wf a -> wf b ->
  (Valid a = Valid b ->
   exactlyOne (IsEqual a b) (IsBefore a b) (IsAfter a b)) /\
  (IsEqual a b = true <-> a = b) /\
  IsBefore a b = (Days a <? Days b) /\
  IsAfter a b = (Days b <? Days a) /\
  (Days a = daysNegInfinity -> Days b <> daysNegInfinity ->
   IsBefore a b = true /\ IsEqual a b = false) /\
  (Days a = daysInfinity -> Days b <> daysInfinity ->
   IsAfter a b = true /\ IsEqual a b = false).
Proof.
  unfold wf, in_int32, daysInfinity, daysNegInfinity, MaxInt32, MinInt32.
  intros Ha Hb. repeat split.
  - intros HV. unfold exactlyOne, IsEqual, IsBefore, IsAfter. rewrite HV.
    rewrite eqb_reflx, andb_true_r.
    destruct (Z.eqb_spec (Days a) (Days b)), (Z.ltb_spec (Days a) (Days b)),
      (Z.ltb_spec (Days b) (Days a)); try lia; tauto.
  - apply IsEqual_eq.
  - apply IsEqual_eq.
  - unfold IsBefore. lia.
  - unfold IsEqual. replace (Days a =? Days b) with false by lia. reflexivity.
  - unfold IsAfter. lia.
  - unfold IsEqual. replace (Days a =? Days b) with false by lia. reflexivity.
Qed.

Lemma comparisons_total_order_witness :
  wf InfinityDate /\ wf (NewLocalDate 2023 5 15) /\
  exactlyOne (IsEqual InfinityDate (NewLocalDate 2023 5 15))
             (IsBefore InfinityDate (NewLocalDate 2023 5 15))
             (IsAfter InfinityDate (NewLocalDate 2023 5 15)).
Proof.
  assert (H1 : wf InfinityDate) by (vm_compute; split; discriminate).
  assert (H2 : wf (NewLocalDate 2023 5 15)) by (vm_compute; split; discriminate).
  split; [exact H1 | split; [exact H2 |]].
  apply (comparisons_total_order InfinityDate (NewLocalDate 2023 5 15) H1 H2).
  reflexivity.
Defined.

(** C2 as the specification states it fails: a date and the absent
    value with the same day count are neither equal, nor is one before
    or after the other. *)
Lemma trichotomy_fails_across_Valid :
  IsEqual (mkLocalDate 0 true) (mkLocalDate 0 false) = false /\
  IsBefore (mkLocalDate 0 true) (mkLocalDate 0 false) = false /\
  IsAfter (mkLocalDate 0 true) (mkLocalDate 0 false) = false.
Proof. repeat split. Qed.

(** C6: [IsBetween] is the inclusive test on the day counts and nothing
    else.  From positive infinity to negative infinity it holds for no
    needle; and with positive infinity as the lower end, or negative
    infinity as the upper end, it holds only when all three day counts
    are that same sentinel. *)
Theorem IsBetween_inclusive_range (needle from to : LocalDate) :
  wf needle -> wf from -> wf to ->
  (IsBetween needle from to = true <->
   Days from <= Days needle <= Days to) /\
  (Days from = daysInfinity -> Days to = daysNegInfinity ->
   IsBetween needle from to = false) /\
  (Days from = daysInfinity \/ Days to = daysNegInfinity ->
   IsBetween needle from to = true ->
   Days needle = Days from /\ Days to = Days from).
Proof.
  unfold wf, in_int32, daysInfinity, daysNegInfinity, MaxInt32, MinInt32,
    IsBetween.
  intros Hn Hf Ht. repeat split.
  - apply andb_true_iff in H. lia.
  - apply andb_true_iff in H. lia.
  - intros [H1 H2]. apply andb_true_iff. lia.
  - intros H1 H2. apply andb_false_iff. lia.
  - apply andb_true_iff in H0. lia.
  - apply andb_true_iff in H0. lia.
Qed.

Lemma IsBetween_inclusive_range_witness :
  wf (NewLocalDate 2023 5 15) /\ wf InfinityDate /\ wf NegInfinityDate /\
  IsBetween (NewLocalDate 2023 5 15) InfinityDate NegInfinityDate = false.
Proof.
  assert (H1 : wf (NewLocalDate 2023 5 15)) by (vm_compute; split; discriminate).
  assert (H2 : wf InfinityDate) by (vm_compute; split; discriminate).
  assert (H3 : wf NegInfinityDate) by (vm_compute; split; discriminate).
  split; [exact H1 | split; [exact H2 | split; [exact H3 |]]].
  apply (IsBetween_inclusive_range _ _ _ H1 H2 H3); reflexivity.
Defined.

End Comparison.

(* ================================================================= *)
(** ** Day arithmetic *)

Section DayArithmetic.

Ltac Zify.zify_post_hook ::= Z.to_euclidean_division_equations.


(** Adding two [int32] values: converting the second operand first
    changes nothing. *)
Lemma wrap32_add_wrap32 (x n : Z) : wrap32 (x + wrap32 n) = wrap32 (x + n).
Proof. unfold wrap32. lia. Qed.

Lemma wrap32_congruent (x : Z) : (wrap32 x - x) mod 2 ^ 32 = 0.
Proof. unfold wrap32. lia. Qed.

(** C4: on a sentinel [AddDays] returns its argument as it is, for
    every [n]; on a finite date it returns a valid date whose day count
    is the 32-bit sum of the day count and [n]: an [int32], equal to
    the sum modulo [2^32], and the sum itself whenever that fits. *)
Theorem AddDays_shifts_or_absorbs (a : LocalDate) (n : Z) :
  wf a ->
  (Days a = daysInfinity \/ Days a = daysNegInfinity -> AddDays a n = a) /\
  (Days a <> daysInfinity -> Days a <> daysNegInfinity ->
   AddDays a n = mkLocalDate (wrap32 (Days a + wrap32 n)) true /\
   Valid (AddDays a n) = true /\
   in_int32 (Days (AddDays a n)) /\
   (Days (AddDays a n) - (Days a + n)) mod 2 ^ 32 = 0 /\
   (in_int32 (Days a + n) -> Days (AddDays a n) = Days a + n)).
Proof.
  intros Hwf. unfold AddDays, IsInfinity, IsNegInfinity. split.
  - intros [H | H]; rewrite H.
    + rewrite Z.eqb_refl. reflexivity.
    + rewrite Z.eqb_refl, orb_true_r. reflexivity.
  - intros H1 H2.
    destruct (Z.eqb_spec (Days a) daysInfinity); [contradiction|].
    destruct (Z.eqb_spec (Days a) daysNegInfinity); [contradiction|].
    cbn [orb Days Valid]. rewrite wrap32_add_wrap32.
    repeat split.
    + apply wrap32_range.
    + apply wrap32_range.
    + apply wrap32_congruent.
    + apply wrap32_id.
Qed.

Lemma AddDays_shifts_or_absorbs_witness :
  wf (NewLocalDate 2023 5 30) /\
  AddDays (NewLocalDate 2023 5 30) 5 = NewLocalDate 2023 6 4.
Proof.
  assert (H : wf (NewLocalDate 2023 5 30)) by (vm_compute; split; discriminate).
  split; [exact H |].
  destruct (AddDays_shifts_or_absorbs (NewLocalDate 2023 5 30) 5 H) as [_ H2].
  destruct H2 as [E _]; [vm_compute; discriminate | vm_compute; discriminate |].
  rewrite E. reflexivity.
Defined.

End DayArithmetic.

(* ================================================================= *)
(** ** Calendar arithmetic *)

Section CalendarArithmetic.

Ltac Zify.zify_post_hook ::= Z.to_euclidean_division_equations.

Lemma epochDay_month_carry (y m d k : Z) :
  epochDay y (m + 12 * k) d = epochDay (y + k) m d.
Proof.
  unfold epochDay. rewrite !dateToAbsDays_norm.
  replace ((m + 12 * k - 1) / 12) with ((m - 1) / 12 + k) by lia.
  replace ((m + 12 * k - 1) mod 12) with ((m - 1) mod 12) by lia.
  replace (y + ((m - 1) / 12 + k)) with (y + k + (m - 1) / 12) by lia.
  reflexivity.
Qed.

Lemma epochDay_day_shift (y m d k : Z) :
  epochDay y m (d + k) = epochDay y m d + k.
Proof.
  unfold epochDay. rewrite !dateToAbsDays_norm. unfold yearDay. lia.
Qed.

Lemma epochDay_month_end (y m k : Z) :
  1 <= m <= 12 -> epochDay y m (daysIn m y + k) = epochDay y (m + 1) k.
Proof.
  intros Hm. rewrite epochDay_day_shift.
  rewrite <- (Z.add_0_l k) at 2. rewrite epochDay_day_shift.
  f_equal. unfold epochDay. f_equal. rewrite !dateToAbsDays_norm.
  destruct (Z.eq_dec m 12) as [-> | Hne].
  - change ((12 - 1) / 12) with 0. change ((12 + 1 - 1) / 12) with 1.
    change ((12 - 1) mod 12 + 1) with 12. change ((12 + 1 - 1) mod 12 + 1) with 1.
    rewrite Z.add_0_r, daysSinceEpoch_step.
    assert (E1 : forall l, yearDay l 12 (daysInMonth l 12) = 364 + leapDay l)
      by (intros []; reflexivity).
    assert (E2 : forall l, yearDay l 1 0 = -1) by (intros []; reflexivity).
    change (daysIn 12 y) with (daysInMonth (isLeap y) 12).
    rewrite E1, E2. lia.
  - replace ((m - 1) / 12) with 0 by lia.
    replace ((m + 1 - 1) / 12) with 0 by lia.
    replace ((m - 1) mod 12 + 1) with m by lia.
    replace ((m + 1 - 1) mod 12 + 1) with (m + 1) by lia.
    rewrite Z.add_0_r. f_equal.
    assert (H : forallb (monthEnd_ok (isLeap y)) (upto 11) = true)
      by (destruct (isLeap y); vm_compute; reflexivity).
    pose proof (upto_forallb _ _ H (m - 1) ltac:(lia)) as H1.
    unfold monthEnd_ok in H1.
    replace (m - 1 + 1) with m in H1 by lia.
    replace (m - 1 + 2) with (m + 1) in H1 by lia.
    apply Z.eqb_eq in H1. exact H1.
Qed.

Lemma daysBefore_range (i : Z) : 0 <= i <= 11 -> 0 <= daysBefore i <= 334.
Proof.
  intros H.
  assert (E : forallb (fun i => (0 <=? daysBefore i) && (daysBefore i <=? 334))
                (upto 12) = true) by (vm_compute; reflexivity).
  pose proof (upto_forallb _ _ E i ltac:(lia)) as H1. cbv beta in H1.
  apply andb_true_iff in H1. lia.
Qed.

(** Inside [dateArgs] nothing that [time.Date] computes leaves its
    64-bit type: the year counted from the absolute epoch and the
    absolute seconds are [uint64] values, and the Unix seconds are an
    [int64]. *)
Lemma Date_within_64_bits (year month day : Z) :
  dateArgs year month day ->
  0 <= fst (norm year (month - 1) 12) - absoluteZeroYear < 2 ^ 64 /\
  0 <= dateToAbsDays year month day * secondsPerDay < 2 ^ 64 /\
  - 2 ^ 63 <= Unix (Date year month day) < 2 ^ 63.
Proof.
  unfold dateArgs, smallInt. intros (Hy & Hm & Hd).
  assert (E32 : 2 ^ 32 = 4294967296) by reflexivity.
  assert (E63 : 2 ^ 63 = 9223372036854775808) by reflexivity.
  assert (E64 : 2 ^ 64 = 18446744073709551616) by reflexivity.
  rewrite E32 in *. rewrite E63, E64.
  unfold Unix, Date. cbn [unixSec].
  assert (EK : absoluteToInternal + internalToUnix = - (106751991073094 * 86400))
    by reflexivity.
  rewrite EK. rewrite dateToAbsDays_norm, norm_12. cbn [fst].
  unfold yearDay, secondsPerDay.
  set (y := year + (month - 1) / 12).
  assert (Hy' : -4652881238 <= y <= 4652881238) by (subst y; lia).
  pose proof (daysBefore_range ((month - 1) mod 12 + 1 - 1) ltac:(lia)) as HB.
  rewrite daysSinceEpoch_closed. unfold absoluteZeroYear.
  set (Y := y - -292277022399). assert (HY : 287624141161 <= Y <= 296929903637) by (subst Y; lia).
  destruct (isLeap y && (March <=? (month - 1) mod 12 + 1)); lia.
Qed.

Lemma DateOf_Time_year_int32 (d : LocalDate) (year month day : Z) :
  wf d -> Days d <> daysInfinity ->
  DateOf (Time d) = (year, month, day) ->
  -5877641 <= year <= 5881580.
Proof.
  intros Hwf Hinf E. rewrite DateOf_Time in E by exact Hinf.
  unfold absDate in E.
  assert (HE : epochAbsDays = 106751991073094) by reflexivity.
  unfold wf, in_int32, MinInt32, MaxInt32 in Hwf.
  pose proof (absYearDay_spec (Days d + epochAbsDays) 0 ltac:(lia) ltac:(lia))
    as [Hsum Hyd].
  destruct (absYearDay ((Days d + epochAbsDays) * 86400 + 0)) as [y yd].
  cbn [fst snd] in *. destruct (monthDay (isLeap y) yd) as [m dd].
  injection E as <- <- <-.
  assert (H0 : daysSinceEpoch (-5877641) = epochAbsDays - 2147483821)
    by (vm_compute; reflexivity).
  assert (H1 : daysSinceEpoch 5881581 = epochAbsDays + 2147483821)
    by (vm_compute; reflexivity).
  split.
  - destruct (Z_lt_le_dec y (-5877641)) as [Hlt|]; [|assumption]. exfalso.
    pose proof (daysSinceEpoch_step y) as Hs.
    pose proof (daysSinceEpoch_mono (y + 1) (-5877641) ltac:(lia)).
    unfold leapDay in *. destruct (isLeap y); lia.
  - destruct (Z_lt_le_dec 5881580 y) as [Hlt|]; [|assumption]. exfalso.
    pose proof (daysSinceEpoch_mono 5881581 y ltac:(lia)). lia.
Qed.

Lemma AddDate_args (t : LocalDate) (year month day years months days : Z) :
  wf t -> Days t <> daysInfinity ->
  DateOf (Time t) = (year, month, day) ->
  in_int32 years -> in_int32 months -> in_int32 days ->
  dateArgs (year + years) (month + months) (day + days).
Proof.
  intros Hwf Hinf E Hys Hms Hds.
  pose proof (DateOf_Time_year_int32 t year month day Hwf Hinf E) as Hy.
  destruct (DateOf_Time_spec t year month day Hwf Hinf E) as [[Hm Hd] _].
  pose proof (daysInMonth_le_31 (isLeap year) month Hm) as H31.
  change (daysIn month year) with (daysInMonth (isLeap year) month) in Hd.
  unfold dateArgs, smallInt, in_int32, MinInt32, MaxInt32 in *.
  assert (E32 : 2 ^ 32 = 4294967296) by reflexivity. rewrite E32. lia.
Qed.

(** C5: [AddDate] returns a sentinel as it is.  A finite date is
    decoded to its year, month and day, an existing day that encodes
    back to the same day count; the offsets are added to the three
    fields and [NewLocalDate] encodes the sums.  [NewLocalDate] carries
    as the proleptic Gregorian calendar does: twelve months are a year,
    every day added is one day later, and the day after the last day
    of a month, February of a leap year included, is the first day of
    the next month.  So 29 February 2020 plus one year is 1 March
    2021.  The offsets are [int32] values and the arguments of
    [NewLocalDate] lie in [dateArgs], where none of Go's 64-bit sums
    overflows; beyond that the code wraps and the calendar laws stop. *)
Theorem AddDate_calendar :
  (forall t years months days,
     Days t = daysInfinity \/ Days t = daysNegInfinity ->
     AddDate t years months days = t) /\
  (forall t years months days,
     wf t -> Days t <> daysInfinity -> Days t <> daysNegInfinity ->
     in_int32 years -> in_int32 months -> in_int32 days ->
     exists year month day,
       DateOf (Time t) = (year, month, day) /\
       validDate year month day /\
       epochDay year month day = Days t /\
       dateArgs (year + years) (month + months) (day + days) /\
       AddDate t years months days
       = NewLocalDate (year + years) (month + months) (day + days)) /\
  (forall year month day,
     dateArgs year month day ->
     NewLocalDate year month day
     = mkLocalDate (wrap32 (epochDay year month day)) true) /\
  (forall year month day k,
     dateArgs year (month + 12 * k) day -> dateArgs (year + k) month day ->
     epochDay year (month + 12 * k) day = epochDay (year + k) month day) /\
  (forall year month day k,
     dateArgs year month day -> dateArgs year month (day + k) ->
     epochDay year month (day + k) = epochDay year month day + k) /\
  (forall year month k,
     1 <= month <= 12 ->
     dateArgs year month (daysIn month year + k) -> dateArgs year (month + 1) k ->
     epochDay year month (daysIn month year + k) = epochDay year (month + 1) k) /\
  AddDate (NewLocalDate 2020 2 29) 1 0 0 = NewLocalDate 2021 3 1.
Proof.
  split; [| split; [| split; [| split; [| split; [| split]]]]].
  - intros t years months days H. unfold AddDate, IsInfinity, IsNegInfinity.
    destruct H as [H | H]; rewrite H.
    + rewrite Z.eqb_refl. reflexivity.
    + rewrite Z.eqb_refl, orb_true_r. reflexivity.
  - intros t years months days Hwf Hinf Hneg Hys Hms Hds.
    destruct (DateOf (Time t)) as [[year month] day] eqn:E.
    exists year, month, day.
    destruct (DateOf_Time_spec t year month day Hwf Hinf E) as [Hv Hd].
    split; [reflexivity | split; [exact Hv | split; [exact Hd |]]].
    split; [exact (AddDate_args t _ _ _ _ _ _ Hwf Hinf E Hys Hms Hds) |].
    unfold AddDate, IsInfinity, IsNegInfinity.
    destruct (Z.eqb_spec (Days t) daysInfinity); [contradiction|].
    destruct (Z.eqb_spec (Days t) daysNegInfinity); [contradiction|].
    cbn [orb]. rewrite E. reflexivity.
  - intros year month day _. apply NewLocalDate_epochDay.
  - intros year month day k _ _. apply epochDay_month_carry.
  - intros year month day k _ _. apply epochDay_day_shift.
  - intros year month k Hm _ _. apply epochDay_month_end. exact Hm.
  - vm_compute. reflexivity.
Qed.

Lemma AddDate_calendar_witness :
  wf (NewLocalDate 2020 2 29) /\
  in_int32 1 /\ in_int32 0 /\
  exists year month day,
    DateOf (Time (NewLocalDate 2020 2 29)) = (year, month, day) /\
    validDate year month day /\
    epochDay year month day = Days (NewLocalDate 2020 2 29) /\
    dateArgs (year + 1) (month + 0) (day + 0) /\
    AddDate (NewLocalDate 2020 2 29) 1 0 0
    = NewLocalDate (year + 1) (month + 0) (day + 0).
Proof.
  assert (H : wf (NewLocalDate 2020 2 29)) by (vm_compute; split; discriminate).
  assert (H1 : in_int32 1) by (vm_compute; split; discriminate).
  assert (H0 : in_int32 0) by (vm_compute; split; discriminate).
  split; [exact H | split; [exact H1 | split; [exact H0 |]]].
  apply (proj1 (proj2 AddDate_calendar) (NewLocalDate 2020 2 29) 1 0 0 H);
    try assumption; vm_compute; discriminate.
Defined.

End CalendarArithmetic.

(* ================================================================= *)
(** ** The text encoding *)

Section TextEncoding.

Ltac Zify.zify_post_hook ::= Z.to_euclidean_division_equations.

Lemma dateFields_not_token (s : string) (y m d : Z) :
  dateFields s = Some (y, m, d) ->
  (s =? "infinity")%string = false /\ (s =? "-infinity")%string = false.
Proof.
  intros H. split.
  - destruct (String.eqb_spec s "infinity") as [-> |]; [discriminate | reflexivity].
  - destruct (String.eqb_spec s "-infinity") as [-> |]; [discriminate | reflexivity].
Qed.

(** C3, as the code has it: the text encoding of a valid date of the
    years 0 to 9999 (day counts -719528 to 2932896) decodes, into any
    receiver, to that date. *)
Theorem text_roundtrip (r d : LocalDate) :
  Valid d = true -> -719528 <= Days d <= 2932896 ->
  exists data, MarshalJSON d = Ok data /\ UnmarshalJSON r data = (d, None).
Proof.
  intros HV Hr.
  assert (Hwf : wf d) by (unfold wf, in_int32, MinInt32, MaxInt32; lia).
  assert (Hinf : Days d <> daysInfinity) by (unfold daysInfinity, MaxInt32; lia).
  assert (Hneg : Days d <> daysNegInfinity)
    by (unfold daysNegInfinity, MinInt32; lia).
  destruct (DateOf (Time d)) as [[y m] dd] eqn:E.
  pose proof (DateOf_Time_spec d y m dd Hwf Hinf E) as [Hv Hday].
  pose proof (DateOf_Time_year d y m dd Hr E) as Hy.
  pose proof Hv as [Hm Hd].
  pose proof (daysInMonth_le_31 (isLeap y) m Hm) as H31.
  assert (Hd99 : 0 <= dd <= 99).
  { unfold daysIn in Hd. fold (daysInMonth (isLeap y) m) in Hd. lia. }
  assert (Hfmt : Format_2006_01_02 (Time d) = fmtDate y m dd)
    by (apply Format_fmtDate; [exact E | lia | lia | lia]).
  assert (Hf : dateFields (fmtDate y m dd) = Some (y, m, dd))
    by (apply dateFields_fmtDate; lia).
  pose proof (dateFields_plain _ _ _ _ Hf) as Hp.
  exists (Json.quoted (fmtDate y m dd)). split.
  - unfold MarshalJSON, IsInfinity, IsNegInfinity.
    destruct (Z.eqb_spec (Days d) daysInfinity); [contradiction|].
    destruct (Z.eqb_spec (Days d) daysNegInfinity); [contradiction|].
    rewrite Hfmt, MarshalString_plain by exact Hp. reflexivity.
  - unfold UnmarshalJSON. rewrite UnmarshalString_quoted by exact Hp.
    destruct (dateFields_not_token _ _ _ _ Hf) as [-> ->].
    destruct (Parse_valid _ _ _ _ Hf Hv) as [-> HD].
    unfold Year, Month, Day. rewrite HD. cbn [fst snd].
    rewrite NewLocalDate_epochDay, Hday, wrap32_id by exact Hwf.
    destruct d as [n v]. cbn in HV. subst v. reflexivity.
Qed.

Lemma text_roundtrip_witness :
  exists data, MarshalJSON (NewLocalDate 2024 2 29) = Ok data
               /\ UnmarshalJSON zeroLocalDate data = (NewLocalDate 2024 2 29, None).
Proof.
  apply (text_roundtrip zeroLocalDate (NewLocalDate 2024 2 29)).
  - reflexivity.
  - vm_compute. split; discriminate.
Defined.

(** C3 as the specification states it fails: 1 January of the year
    10000 is a finite date, its text has a year of five digits, and
    decoding that text is an error.  So is decoding the text of
    31 December of the year before the year 0, which starts with a minus
    sign.  And the text of a finite day count that is not valid decodes
    to a valid date, which is not equal to it. *)
Lemma roundtrip_fails_outside_years_0_9999 :
  (finite (mkLocalDate 2932897 true) /\
   MarshalJSON (mkLocalDate 2932897 true) = Ok (Json.quoted "10000-01-01") /\
   UnmarshalJSON zeroLocalDate (Json.quoted "10000-01-01")
   = (zeroLocalDate, Some (TimeParseError EmptyString)) /\
   IsEqual (fst (UnmarshalJSON zeroLocalDate (Json.quoted "10000-01-01")))
           (mkLocalDate 2932897 true) = false) /\
  (finite (mkLocalDate (-719529) true) /\
   MarshalJSON (mkLocalDate (-719529) true) = Ok (Json.quoted "-0001-12-31") /\
   UnmarshalJSON zeroLocalDate (Json.quoted "-0001-12-31")
   = (zeroLocalDate, Some (TimeParseError EmptyString))) /\
  (finite (mkLocalDate 0 false) /\
   MarshalJSON (mkLocalDate 0 false) = Ok (Json.quoted "1970-01-01") /\
   UnmarshalJSON zeroLocalDate (Json.quoted "1970-01-01")
   = (mkLocalDate 0 true, None) /\
   IsEqual (mkLocalDate 0 true) (mkLocalDate 0 false) = false).
Proof.
  assert (Hfin : forall n v, -2147483648 < n < 2147483647 ->
                             finite (mkLocalDate n v)).
  { intros n v Hn.
    unfold finite, wf, in_int32, daysInfinity, daysNegInfinity, MinInt32,
      MaxInt32. cbn [Days]. lia. }
  repeat split; try (apply Hfin; lia); vm_compute; reflexivity.
Qed.

Lemma At_of_fields (s : string) (y m d : Z) :
  dateFields s = Some (y, m, d) -> validDate y m d ->
  At s = (mkLocalDate (epochDay y m d) true, None) /\
  DateOf (Time (mkLocalDate (epochDay y m d) true)) = (y, m, d).
Proof.
  intros Hf Hv. pose proof (dateFields_year s y m d Hf) as (Hy & _ & _).
  pose proof (epochDay_range y m d Hy Hv) as Hr.
  split.
  - unfold At. destruct (Parse_valid s y m d Hf Hv) as [-> HD].
    unfold Year, Month, Day. rewrite HD. cbn [fst snd].
    rewrite NewLocalDate_epochDay, wrap32_id
      by (unfold in_int32, MinInt32, MaxInt32; lia).
    reflexivity.
  - rewrite DateOf_Time by (cbn [Days]; unfold daysInfinity, MaxInt32; lia).
    cbn [Days]. unfold epochDay.
    replace (dateToAbsDays y m d - epochAbsDays + epochAbsDays)
      with (dateToAbsDays y m d) by lia.
    apply absDate_inv; [unfold absoluteZeroYear; lia | exact Hv | lia].
Qed.

(** C8: [At] succeeds exactly on the texts of the strict shape
    [YYYY-MM-DD] that name an existing day, and then returns that very
    day: the date decodes to the year, month and day that were written,
    nothing is carried.  On every other text it returns the zero
    [LocalDate], which is not valid, and a [*time.ParseError].  So
    ["2023-02-29"] is refused, where [NewLocalDate] would carry it to
    1 March. *)
Theorem At_strict :
  (forall s r, At s = (r, None) <->
     exists y m d, dateFields s = Some (y, m, d) /\ validDate y m d
                   /\ r = mkLocalDate (epochDay y m d) true) /\
  (forall s y m d, dateFields s = Some (y, m, d) -> validDate y m d ->
     At s = (NewLocalDate y m d, None) /\
     DateOf (Time (fst (At s))) = (y, m, d)) /\
  (forall s, (forall y m d, dateFields s = Some (y, m, d) -> ~ validDate y m d) ->
     exists detail, At s = (zeroLocalDate, Some (TimeParseError detail))) /\
  (forall s r e, At s = (r, Some e) ->
     r = zeroLocalDate /\ Valid r = false
     /\ exists detail, e = TimeParseError detail) /\
  At "2023-02-29" = (zeroLocalDate, Some (TimeParseError ": day out of range")) /\
  NewLocalDate 2023 2 29 = NewLocalDate 2023 3 1.
Proof.
  split; [| split; [| split; [| split; [| split]]]].
  - intros s r. split.
    + intros H. unfold At in H.
      destruct (Parse_2006_01_02 s) as [t | e] eqn:E; [|discriminate].
      destruct (Parse_Ok_fields s t E) as (y & m & d & Hf).
      destruct (validDateb y m d) eqn:Hv.
      * apply validDateb_spec in Hv. exists y, m, d.
        destruct (At_of_fields s y m d Hf Hv) as [HA _].
        unfold At in HA. rewrite E in HA.
        split; [exact Hf | split; [exact Hv |]]. congruence.
      * assert (Hn : ~ validDate y m d)
          by (intros Hc; apply validDateb_spec in Hc; congruence).
        destruct (Parse_invalid s y m d Hf Hn) as [detail E']. congruence.
    + intros (y & m & d & Hf & Hv & ->). apply At_of_fields; assumption.
  - intros s y m d Hf Hv. destruct (At_of_fields s y m d Hf Hv) as [-> HD].
    split; [| exact HD].
    f_equal. rewrite NewLocalDate_epochDay, wrap32_id; [reflexivity|].
    pose proof (dateFields_year s y m d Hf) as (Hy & _ & _).
    pose proof (epochDay_range y m d Hy Hv).
    unfold in_int32, MinInt32, MaxInt32; lia.
  - intros s Hno. unfold At.
    destruct (dateFields s) as [[[y m] d]|] eqn:Hf.
    + destruct (Parse_invalid s y m d Hf (Hno y m d eq_refl)) as [detail ->].
      eauto.
    + destruct (Parse_no_fields s Hf) as [detail ->]. eauto.
  - intros s r e H. unfold At in H.
    destruct (Parse_2006_01_02 s) as [t | e'] eqn:E; [discriminate|].
    injection H as <- <-. split; [reflexivity | split; [reflexivity |]].
    exact (Parse_error_kind s e' E).
  - vm_compute. reflexivity.
  - vm_compute. reflexivity.
Qed.

Lemma At_strict_witness :
  validDate 2024 2 29 /\
  At "2024-02-29" = (NewLocalDate 2024 2 29, None) /\
  DateOf (Time (fst (At "2024-02-29"))) = (2024, 2, 29).
Proof.
  assert (Hv : validDate 2024 2 29) by (vm_compute; repeat split; discriminate).
  split; [exact Hv |].
  apply (proj1 (proj2 At_strict) "2024-02-29" 2024 2 29 eq_refl Hv).
Defined.

(** C1, where the code and the claim part: decoding a sentinel token
    sets the day count and leaves the [Valid] flag of the receiver as
    it was, so the result is the sentinel constructor's value only for
    a receiver that was valid already; decoded into the zero value it
    is not.  The tokens are matched byte for byte, before any date is
    parsed: a capital letter makes the text a malformed date. *)
Theorem UnmarshalJSON_sentinel_tokens :
  (forall d, UnmarshalJSON d (Json.quoted "infinity")
             = (mkLocalDate daysInfinity (Valid d), None)) /\
  (forall d, UnmarshalJSON d (Json.quoted "-infinity")
             = (mkLocalDate daysNegInfinity (Valid d), None)) /\
  (forall d, IsEqual (fst (UnmarshalJSON d (Json.quoted "infinity")))
                     InfinityDate = Valid d) /\
  (forall d, IsEqual (fst (UnmarshalJSON d (Json.quoted "-infinity")))
                     NegInfinityDate = Valid d) /\
  UnmarshalJSON zeroLocalDate (Json.quoted "infinity")
  = (mkLocalDate daysInfinity false, None) /\
  IsEqual (fst (UnmarshalJSON zeroLocalDate (Json.quoted "infinity")))
          InfinityDate = false /\
  InfinityDate = mkLocalDate daysInfinity true /\
  pgValid (PgDate (fst (UnmarshalJSON zeroLocalDate (Json.quoted "infinity"))))
  = false /\
  (forall d, UnmarshalJSON d (Json.quoted "Infinity")
             = (d, Some (TimeParseError EmptyString))).
Proof.
  repeat split; try (intros [n v]); try (vm_compute; reflexivity).
  - destruct v; vm_compute; reflexivity.
  - destruct v; vm_compute; reflexivity.
Qed.

End TextEncoding.

(* ================================================================= *)
(** ** The instant of a date, and the encodings that ignore [Valid] *)

Section Instants.

(** C7, where the code and the claim part: [Time] gives the zero
    instant for positive infinity only.  Negative infinity is treated
    as an ordinary day count and yields midnight of 23 June of the year
    -5877641; every other date yields the UTC midnight of its day. *)
Theorem Time_of_sentinels :
  Time InfinityDate = zeroTime /\
  Time NegInfinityDate = mkTime (-185542587187200) 0 0 /\
  Time NegInfinityDate <> zeroTime /\
  DateOf (Time NegInfinityDate) = (-5877641, 6, 23) /\
  (forall d, Days d <> daysInfinity ->
             Time d = mkTime (Days d * 86400) 0 0).
Proof.
  repeat split.
  - discriminate.
  - apply Time_not_infinity.
Qed.

(** C10, where the code and the claim part: the text encoding and the
    persistence write never look at [Valid], so the absent value with
    day count 0 is written as 1 January 1970; only [PgDate] reports it
    as absent. *)
Theorem invalid_zero_written_as_epoch :
  MarshalJSON (mkLocalDate 0 false) = Ok (Json.quoted "1970-01-01") /\
  Value (mkLocalDate 0 false) = Ok (DVTime (mkTime 0 0 0)) /\
  DateOf (mkTime 0 0 0) = (1970, 1, 1) /\
  pgValid (PgDate (mkLocalDate 0 false)) = false.
Proof. repeat split. Qed.

End Instants.

(* ================================================================= *)
(** ** The persistence scan *)

Section Scanning.

(** C9: scanning [nil] succeeds and returns the receiver as it was;
    scanning a value of an unsupported type fails with the error that
    names the type and returns the receiver as it was.  Every failing
    scan leaves the receiver as it was, and the type error arises for
    unsupported types only. *)
Theorem Scan_nil_and_unsupported (d : LocalDate) :
  Scan d SVNil = (d, None) /\
  (forall ty,
     Scan d (SVOther ty)
     = (d, Some (ScanTypeError
                   ("unsupported Scan, storing " ++ ty ++ " into LocalDate")))) /\
  (forall v e, snd (Scan d v) = Some e -> fst (Scan d v) = d) /\
  (forall v msg, snd (Scan d v) = Some (ScanTypeError msg) ->
                 exists ty, v = SVOther ty).
Proof.
  repeat split.
  - intros v e. destruct v as [t | s | | ty]; cbn; try discriminate.
    + destruct (s =? "infinity")%string; [discriminate|].
      destruct (s =? "-infinity")%string; [discriminate|].
      destruct (Parse_2006_01_02 s); [discriminate | reflexivity].
    + reflexivity.
  - intros v msg. destruct v as [t | s | | ty]; cbn; try discriminate.
    + destruct (s =? "infinity")%string; [discriminate|].
      destruct (s =? "-infinity")%string; [discriminate|].
      destruct (Parse_2006_01_02 s) as [t | e] eqn:E; [discriminate|].
      apply Parse_error_kind in E. destruct E as [detail ->]. discriminate.
    + intros _. exists ty. reflexivity.
Qed.

Lemma Scan_nil_and_unsupported_witness :
  fst (Scan InfinityDate (SVOther "int64")) = InfinityDate.
Proof.
  apply (proj1 (proj2 (proj2 (Scan_nil_and_unsupported InfinityDate)))
           (SVOther "int64")
           (ScanTypeError "unsupported Scan, storing int64 into LocalDate")).
  reflexivity.
Defined.

End Scanning.

(* ================================================================= *)
(** ** Dates of instants *)

Section OfInstants.

Ltac Zify.zify_post_hook ::= Z.to_euclidean_division_equations.

Lemma epochAbsDays_value : epochAbsDays = 106751991073094.
Proof. reflexivity. Qed.

(** The date of an instant is the day of its clock reading. *)
Lemma ToLocalDate_wrap (t : GoTime.Time) :
  0 <= abs t ->
  ToLocalDate t = mkLocalDate (wrap32 ((unixSec t + zoneOffset t) / 86400)) true.
Proof.
  intros Habs. unfold ToLocalDate, Year, Month, Day, DateOf.
  destruct (absDate (abs t)) as [[y m] d] eqn:E. cbn [fst snd].
  unfold abs in *. rewrite epochAbsDays_seconds in *.
  pose proof epochAbsDays_value as HK.
  set (L := unixSec t + zoneOffset t) in *.
  replace (L + epochAbsDays * 86400)
    with ((L / 86400 + epochAbsDays) * 86400 + L mod 86400) in E by lia.
  apply absDate_spec in E; [| lia | lia].
  destruct E as [_ E]. rewrite NewLocalDate_epochDay. unfold epochDay.
  rewrite E. do 2 f_equal. lia.
Qed.

(** [ToLocalDate], and [Scan] of an instant, take the calendar day that
    the instant shows on the clock of its own location: the day count is
    the instant's seconds plus its zone offset, divided by 86400 and
    rounded down; the time of day and the receiver do not matter. *)
Theorem ToLocalDate_clock_day (r : LocalDate) (t : GoTime.Time) :
  in_int32 ((unixSec t + zoneOffset t) / 86400) ->
  ToLocalDate t = mkLocalDate ((unixSec t + zoneOffset t) / 86400) true /\
  Scan r (SVTime t)
  = (mkLocalDate ((unixSec t + zoneOffset t) / 86400) true, None).
Proof.
  intros H.
  assert (E : ToLocalDate t
              = mkLocalDate ((unixSec t + zoneOffset t) / 86400) true).
  { rewrite ToLocalDate_wrap, wrap32_id by
      (exact H || (unfold in_int32, MinInt32, MaxInt32, abs in *;
                   rewrite epochAbsDays_seconds; pose proof epochAbsDays_value; lia)).
    reflexivity. }
  split; [exact E |]. cbn [Scan]. fold (ToLocalDate t). rewrite E. reflexivity.
Qed.

Lemma ToLocalDate_clock_day_witness :
  ToLocalDate (mkTime 1684216800 0 (-36000)) = NewLocalDate 2023 5 15.
Proof.
  destruct (ToLocalDate_clock_day zeroLocalDate (mkTime 1684216800 0 (-36000)))
    as [E _].
  - vm_compute. split; discriminate.
  - rewrite E. vm_compute. reflexivity.
Defined.

(** [Today] is the UTC day of the current instant, whatever the zone of
    the instant that [time.Now] returned: its seconds divided by 86400
    and rounded down. *)
Theorem Today_utc_day (now : GoTime.Time) :
  in_int32 (unixSec now / 86400) ->
  Today now = mkLocalDate (unixSec now / 86400) true.
Proof.
  intros H. unfold Today. fold (ToLocalDate (UTC now)).
  rewrite ToLocalDate_wrap.
  - cbn [UTC unixSec zoneOffset]. rewrite Z.add_0_r.
    rewrite wrap32_id by exact H. reflexivity.
  - unfold abs. cbn [UTC unixSec zoneOffset]. rewrite epochAbsDays_seconds.
    pose proof epochAbsDays_value. unfold in_int32, MinInt32, MaxInt32 in H. lia.
Qed.

Lemma Today_utc_day_witness :
  Today (mkTime 1684216800 999 (-36000)) = NewLocalDate 2023 5 16.
Proof.
  rewrite (Today_utc_day (mkTime 1684216800 999 (-36000))).
  - vm_compute. reflexivity.
  - vm_compute. split; discriminate.
Defined.

Lemma ToLocalDate_Time_finite (d : LocalDate) :
  wf d -> Days d <> daysInfinity ->
  ToLocalDate (Time d) = mkLocalDate (Days d) true.
Proof.
  intros Hwf Hinf. rewrite Time_not_infinity by exact Hinf.
  rewrite ToLocalDate_wrap.
  - cbn [unixSec zoneOffset]. rewrite Z.add_0_r, Z.div_mul by lia.
    rewrite wrap32_id by exact Hwf. reflexivity.
  - unfold abs. cbn [unixSec zoneOffset]. rewrite epochAbsDays_seconds.
    pose proof epochAbsDays_value.
    unfold wf, in_int32, MinInt32, MaxInt32 in Hwf. lia.
Qed.

(** [ToLocalDate] undoes [Time] on every date but positive infinity,
    negative infinity included, and marks the result valid; the instant
    of positive infinity is the zero instant, whose date is 1 January of
    year 1. *)
Theorem ToLocalDate_Time (d : LocalDate) :
  wf d ->
  (Days d <> daysInfinity -> ToLocalDate (Time d) = mkLocalDate (Days d) true) /\
  (Days d = daysInfinity -> ToLocalDate (Time d) = NewLocalDate 1 1 1).
Proof.
  intros Hwf. split.
  - intros Hinf. apply ToLocalDate_Time_finite; assumption.
  - intros Hinf. unfold Time, IsInfinity. rewrite Hinf, Z.eqb_refl.
    vm_compute. reflexivity.
Qed.

Lemma ToLocalDate_Time_witness :
  ToLocalDate (Time NegInfinityDate) = NegInfinityDate.
Proof.
  assert (H : wf NegInfinityDate) by (vm_compute; split; discriminate).
  apply (proj1 (ToLocalDate_Time NegInfinityDate H)).
  vm_compute. discriminate.
Defined.

End OfInstants.

(* ================================================================= *)
(** ** Persistence and the database date *)

Section Persistence.

Ltac Zify.zify_post_hook ::= Z.to_euclidean_division_equations.

(** Writing a valid date with [Value] and scanning what was written
    gives the date back, over the whole 32-bit range of day counts; for
    a sentinel this needs a receiver that is valid already, since
    scanning a token keeps the receiver's flag. *)
Theorem Value_Scan_roundtrip (r d : LocalDate) :
  wf d -> Valid d = true ->
  (Days d = daysInfinity \/ Days d = daysNegInfinity -> Valid r = true) ->
  exists v, Value d = Ok v /\ Scan r (driverToScan v) = (d, None).
Proof.
  intros Hwf HV Hr. destruct d as [n v]. cbn [Days Valid] in *. subst v.
  unfold Value, IsInfinity, IsNegInfinity. cbn [Days].
  destruct (Z.eqb_spec n daysInfinity) as [-> | Hinf].
  - exists (DVString "infinity"). split; [reflexivity |].
    cbn. rewrite Hr by (left; reflexivity). reflexivity.
  - destruct (Z.eqb_spec n daysNegInfinity) as [-> | Hneg].
    + exists (DVString "-infinity"). split; [reflexivity |].
      cbn. rewrite Hr by (right; reflexivity). reflexivity.
    + exists (DVTime (Time (mkLocalDate n true))). split; [reflexivity |].
      cbn [driverToScan Scan]. fold (ToLocalDate (Time (mkLocalDate n true))).
      rewrite ToLocalDate_Time_finite by assumption. reflexivity.
Qed.

Lemma Value_Scan_roundtrip_witness :
  exists v, Value (mkLocalDate 2932897 true) = Ok v
            /\ Scan zeroLocalDate (driverToScan v) = (mkLocalDate 2932897 true, None).
Proof.
  apply (Value_Scan_roundtrip zeroLocalDate (mkLocalDate 2932897 true)).
  - vm_compute. split; discriminate.
  - reflexivity.
  - intros [H | H]; vm_compute in H; discriminate.
Defined.

(** [PgDate] loses nothing on valid dates: two valid dates with the same
    [pgtype.Date] are the same date. *)
Theorem PgDate_injective (a b : LocalDate) :
  Valid a = true -> Valid b = true -> PgDate a = PgDate b -> a = b.
Proof.
  destruct a as [n va], b as [m vb]. cbn [Valid]. intros -> ->.
  unfold PgDate, InfinityModifier, Time, IsInfinity. cbn [Valid Days negb].
  destruct (Z.eqb_spec n daysInfinity) as [En | Hn],
    (Z.eqb_spec m daysInfinity) as [Em | Hm],
    (Z.eqb_spec n daysNegInfinity) as [En' | Hn'],
    (Z.eqb_spec m daysNegInfinity) as [Em' | Hm'];
    cbn [negb Z.eqb]; try discriminate; try (intros _; congruence).
  unfold UnixUTC, pgFinite. intros [= E]. f_equal. lia.
Qed.

Lemma PgDate_injective_witness :
  AddDays InfinityDate 1 = InfinityDate.
Proof.
  apply (PgDate_injective (AddDays InfinityDate 1) InfinityDate);
    vm_compute; reflexivity.
Defined.

End Persistence.

(* ================================================================= *)
(** ** More on comparison and arithmetic *)

Section Arithmetic.

Ltac Zify.zify_post_hook ::= Z.to_euclidean_division_equations.

(** [InfinityModifier] is -1, 0 or 1 and grows with the day count. *)
Theorem InfinityModifier_monotone (a b : LocalDate) :
  wf a -> wf b -> Days a <= Days b ->
  -1 <= InfinityModifier a /\ InfinityModifier a <= InfinityModifier b
  /\ InfinityModifier b <= 1.
Proof.
  unfold wf, in_int32, InfinityModifier, daysInfinity, daysNegInfinity,
    MinInt32, MaxInt32.
  intros Ha Hb Hab.
  destruct (Z.eqb_spec (Days a) 2147483647), (Z.eqb_spec (Days b) 2147483647),
    (Z.eqb_spec (Days a) (-2147483648)), (Z.eqb_spec (Days b) (-2147483648)); lia.
Qed.

Lemma InfinityModifier_monotone_witness :
  -1 <= InfinityModifier NegInfinityDate /\
  InfinityModifier NegInfinityDate <= InfinityModifier (NewLocalDate 2023 5 15) /\
  InfinityModifier (NewLocalDate 2023 5 15) <= 1.
Proof.
  apply (InfinityModifier_monotone NegInfinityDate (NewLocalDate 2023 5 15)).
  - vm_compute. split; discriminate.
  - vm_compute. split; discriminate.
  - vm_compute. discriminate.
Defined.

(** A needle between two dates stays between them when the range is
    widened, and is then neither before the lower nor after the upper
    end. *)
Theorem IsBetween_widen (needle from to from' to' : LocalDate) :
  IsBetween needle from to = true ->
  IsAfter from' from = false -> IsBefore to' to = false ->
  IsBetween needle from' to' = true /\
  IsBefore needle from' = false /\ IsAfter needle to' = false.
Proof.
  unfold IsBetween, IsAfter, IsBefore. rewrite !andb_true_iff. lia.
Qed.

Lemma IsBetween_widen_witness :
  IsBetween (NewLocalDate 2023 5 15) NegInfinityDate InfinityDate = true.
Proof.
  apply (IsBetween_widen (NewLocalDate 2023 5 15) (NewLocalDate 2023 5 10)
           (NewLocalDate 2023 5 20) NegInfinityDate InfinityDate);
    vm_compute; reflexivity.
Defined.

(** Every date, the sentinels included, is between negative and
    positive infinity. *)
Theorem IsBetween_whole_line (needle : LocalDate) :
  wf needle -> IsBetween needle NegInfinityDate InfinityDate = true.
Proof.
  unfold wf, in_int32, IsBetween, NegInfinityDate, InfinityDate,
    daysInfinity, daysNegInfinity. cbn [Days].
  intros H. apply andb_true_iff. lia.
Qed.

Lemma IsBetween_whole_line_witness :
  IsBetween NegInfinityDate NegInfinityDate InfinityDate = true.
Proof.
  apply (IsBetween_whole_line NegInfinityDate). vm_compute. split; discriminate.
Defined.

Lemma wrap32_add_l (x n : Z) : wrap32 (wrap32 x + n) = wrap32 (x + n).
Proof. unfold wrap32. lia. Qed.

Lemma AddDays_finite (a : LocalDate) (n : Z) :
  Days a <> daysInfinity -> Days a <> daysNegInfinity ->
  AddDays a n = mkLocalDate (wrap32 (Days a + n)) true.
Proof.
  intros H1 H2. unfold AddDays, IsInfinity, IsNegInfinity.
  destruct (Z.eqb_spec (Days a) daysInfinity); [contradiction|].
  destruct (Z.eqb_spec (Days a) daysNegInfinity); [contradiction|].
  cbn [orb]. rewrite wrap32_add_wrap32. reflexivity.
Qed.

(** Two shifts are the shift by the sum, as long as the first one does
    not land on a sentinel's day count. *)
Theorem AddDays_compose (a : LocalDate) (n m : Z) :
  Days a <> daysInfinity -> Days a <> daysNegInfinity ->
  wrap32 (Days a + n) <> daysInfinity -> wrap32 (Days a + n) <> daysNegInfinity ->
  AddDays (AddDays a n) m = AddDays a (n + m).
Proof.
  intros H1 H2 H3 H4. rewrite (AddDays_finite a n), (AddDays_finite a (n + m))
    by assumption.
  rewrite AddDays_finite by (cbn [Days]; assumption). cbn [Days].
  rewrite wrap32_add_l. do 2 f_equal. lia.
Qed.

Lemma AddDays_compose_witness :
  AddDays (AddDays (NewLocalDate 2023 5 15) 365) (-365)
  = AddDays (NewLocalDate 2023 5 15) (365 + -365).
Proof.
  apply (AddDays_compose (NewLocalDate 2023 5 15) 365 (-365));
    vm_compute; discriminate.
Defined.

(** [AddDays] does not keep finite dates apart from the sentinels: from
    every finite date one shift reaches the day count of positive
    infinity, another that of negative infinity, and no later shift
    leads back. *)
Theorem AddDays_reaches_sentinel (a : LocalDate) (m : Z) :
  wf a -> Days a <> daysInfinity -> Days a <> daysNegInfinity ->
  AddDays a (daysInfinity - Days a) = InfinityDate /\
  AddDays a (daysNegInfinity - Days a) = NegInfinityDate /\
  AddDays (AddDays a (daysInfinity - Days a)) m = InfinityDate /\
  AddDays (AddDays a (daysNegInfinity - Days a)) m = NegInfinityDate.
Proof.
  intros Hwf H1 H2.
  assert (E1 : AddDays a (daysInfinity - Days a) = InfinityDate).
  { rewrite AddDays_finite by assumption.
    replace (Days a + (daysInfinity - Days a)) with daysInfinity by lia.
    reflexivity. }
  assert (E2 : AddDays a (daysNegInfinity - Days a) = NegInfinityDate).
  { rewrite AddDays_finite by assumption.
    replace (Days a + (daysNegInfinity - Days a)) with daysNegInfinity by lia.
    reflexivity. }
  rewrite E1, E2. repeat split.
Qed.

Lemma AddDays_reaches_sentinel_witness :
  AddDays (AddDays (NewLocalDate 2023 5 15)
             (daysInfinity - Days (NewLocalDate 2023 5 15))) (-1)
  = InfinityDate.
Proof.
  apply (AddDays_reaches_sentinel (NewLocalDate 2023 5 15) (-1)).
  - vm_compute. split; discriminate.
  - vm_compute. discriminate.
  - vm_compute. discriminate.
Defined.

(** Adding days with [AddDate] is [AddDays], for every [int32] number of
    days. *)
Theorem AddDate_days_is_AddDays (t : LocalDate) (n : Z) :
  wf t -> in_int32 n -> AddDate t 0 0 n = AddDays t n.
Proof.
  intros Hwf _. unfold AddDate, AddDays.
  destruct (IsInfinity t || IsNegInfinity t) eqn:E; [reflexivity |].
  apply orb_false_iff in E. destruct E as [E1 E2].
  unfold IsInfinity in E1. unfold IsNegInfinity in E2.
  apply Z.eqb_neq in E1, E2.
  destruct (DateOf (Time t)) as [[y mo] d] eqn:ED.
  destruct (DateOf_Time_spec t y mo d Hwf E1 ED) as [_ Hd].
  rewrite !Z.add_0_r, NewLocalDate_epochDay, epochDay_day_shift, Hd.
  rewrite wrap32_add_wrap32. reflexivity.
Qed.

Lemma AddDate_days_is_AddDays_witness :
  AddDate (NewLocalDate 2023 1 25) 0 0 10 = AddDays (NewLocalDate 2023 1 25) 10.
Proof.
  apply (AddDate_days_is_AddDays (NewLocalDate 2023 1 25) 10);
    vm_compute; split; discriminate.
Defined.

(** For [AddDate] twelve months are one year, for [int32] offsets. *)
Theorem AddDate_twelve_months (t : LocalDate) (years months days k : Z) :
  wf t ->
  in_int32 years -> in_int32 (years + k) ->
  in_int32 months -> in_int32 (months + 12 * k) -> in_int32 days ->
  AddDate t years (months + 12 * k) days = AddDate t (years + k) months days.
Proof.
  intros _ _ _ _ _ _.
  unfold AddDate. destruct (IsInfinity t || IsNegInfinity t); [reflexivity |].
  destruct (DateOf (Time t)) as [[y mo] d].
  rewrite !NewLocalDate_epochDay.
  replace (mo + (months + 12 * k)) with (mo + months + 12 * k) by lia.
  rewrite epochDay_month_carry.
  replace (y + years + k) with (y + (years + k)) by lia. reflexivity.
Qed.

Lemma AddDate_twelve_months_witness :
  AddDate (NewLocalDate 2023 11 15) 0 (3 + 12 * 1) 0
  = AddDate (NewLocalDate 2023 11 15) (0 + 1) 3 0.
Proof.
  apply (AddDate_twelve_months (NewLocalDate 2023 11 15) 0 3 0 1);
    vm_compute; split; discriminate.
Defined.

(** [AddDate] does not clamp the day to the end of the month: one month
    after a day that the next month does not have is a day of the month
    after that. *)
Theorem AddDate_month_overflow (t : LocalDate) (y m d : Z) :
  wf t -> Days t <> daysInfinity -> Days t <> daysNegInfinity ->
  DateOf (Time t) = (y, m, d) ->
  1 <= m <= 11 -> daysIn (m + 1) y < d ->
  AddDate t 0 1 0 = NewLocalDate y (m + 2) (d - daysIn (m + 1) y).
Proof.
  intros Hwf Hinf Hneg E Hm Hd. unfold AddDate, IsInfinity, IsNegInfinity.
  destruct (Z.eqb_spec (Days t) daysInfinity); [contradiction|].
  destruct (Z.eqb_spec (Days t) daysNegInfinity); [contradiction|].
  cbn [orb]. rewrite E, !Z.add_0_r, !NewLocalDate_epochDay.
  replace d with (daysIn (m + 1) y + (d - daysIn (m + 1) y)) at 1 by lia.
  rewrite epochDay_month_end by lia.
  replace (m + 1 + 1) with (m + 2) by lia. reflexivity.
Qed.

Lemma AddDate_month_overflow_witness :
  AddDate (NewLocalDate 2023 1 31) 0 1 0
  = NewLocalDate 2023 (1 + 2) (31 - daysIn (1 + 1) 2023).
Proof.
  apply (AddDate_month_overflow (NewLocalDate 2023 1 31) 2023 1 31).
  - vm_compute. split; discriminate.
  - vm_compute. discriminate.
  - vm_compute. discriminate.
  - vm_compute. reflexivity.
  - lia.
  - vm_compute. reflexivity.
Defined.

End Arithmetic.

(* ================================================================= *)
(** ** More on the text and string decoders *)

Section Decoders.

Ltac Zify.zify_post_hook ::= Z.to_euclidean_division_equations.

Lemma chars_app (P : ascii -> bool) (s1 s2 : string) :
  forallb P (list_ascii_of_string (s1 ++ s2))
  = forallb P (list_ascii_of_string s1) && forallb P (list_ascii_of_string s2).
Proof.
  induction s1 as [|c r IH]; [reflexivity|].
  cbn [append list_ascii_of_string forallb]. rewrite IH, andb_assoc. reflexivity.
Qed.

Lemma digit_dateChar (k : Z) : 0 <= k <= 9 -> dateChar (digit k) = true.
Proof.
  intros H. unfold dateChar. destruct (digit_spec k H) as [-> _]. reflexivity.
Qed.

Lemma dateChar_plain (c : ascii) : dateChar c = true -> plainChar c = true.
Proof.
  unfold dateChar. intros H. apply orb_true_iff in H. destruct H as [H | H].
  - apply isDigitChar_plain. exact H.
  - apply Ascii.eqb_eq in H. subst c. reflexivity.
Qed.

Lemma dateChars_plain (s : string) :
  forallb dateChar (list_ascii_of_string s) = true ->
  forallb plainChar (list_ascii_of_string s) = true.
Proof.
  induction s as [|c r IH]; [reflexivity|].
  cbn [list_ascii_of_string forallb]. rewrite !andb_true_iff.
  intros [Hc Hr]. split; [apply dateChar_plain; exact Hc | apply IH; exact Hr].
Qed.

Lemma udigits_dateChars (fuel : nat) (u : Z) (acc : string) :
  forallb dateChar (list_ascii_of_string acc) = true ->
  forallb dateChar (list_ascii_of_string (udigits fuel u acc)) = true.
Proof.
  revert u acc. induction fuel as [|fuel IH]; intros u acc Hacc; [exact Hacc|].
  cbn [udigits]. destruct (u <=? 0); [exact Hacc|].
  apply IH. cbn [list_ascii_of_string forallb].
  rewrite digit_dateChar by lia. exact Hacc.
Qed.

Lemma zeros_dateChars (n : nat) :
  forallb dateChar (list_ascii_of_string (zeros n)) = true.
Proof. induction n as [|n IH]; [reflexivity | exact IH]. Qed.

Lemma appendInt_dateChars (x width : Z) :
  forallb dateChar (list_ascii_of_string (appendInt x width)) = true.
Proof.
  unfold appendInt.
  assert (Hsign : forallb dateChar
                    (list_ascii_of_string (if x <? 0 then "-" else EmptyString))
                  = true)
    by (destruct (x <? 0); reflexivity).
  generalize dependent (if x <? 0 then "-" else EmptyString). intros sign Hsign.
  set (u := Z.abs x). assert (Hu : 0 <= u) by (subst u; lia). clearbody u.
  destruct ((width =? 2) && (u <? 100)) eqn:E2.
  - rewrite chars_app, Hsign.
    cbn [list_ascii_of_string forallb andb].
    rewrite (digit_dateChar (u / 10)), (digit_dateChar (u mod 10)) by lia.
    reflexivity.
  - destruct ((width =? 4) && (u <? 10000)) eqn:E4.
    + apply andb_true_iff in E4. destruct E4 as [_ E4]. apply Z.ltb_lt in E4.
      rewrite chars_app, Hsign.
      cbn [list_ascii_of_string forallb andb].
      rewrite (digit_dateChar (u / 100 / 10)), (digit_dateChar (u / 100 mod 10)),
        (digit_dateChar (u mod 100 / 10)), (digit_dateChar (u mod 100 mod 10))
        by lia.
      reflexivity.
    + rewrite !chars_app, Hsign, zeros_dateChars. cbn [andb].
      destruct (u =? 0); [reflexivity|].
      apply udigits_dateChars. reflexivity.
Qed.

Lemma Format_dateChars (t : GoTime.Time) :
  forallb dateChar (list_ascii_of_string (Format_2006_01_02 t)) = true.
Proof.
  unfold Format_2006_01_02. destruct (DateOf t) as [[y m] d].
  rewrite !chars_app, !appendInt_dateChars. reflexivity.
Qed.

(** [MarshalJSON] never fails and always writes a JSON string of plain
    characters that [json.Unmarshal] reads back as the same text: a
    sentinel's token, or the formatted date, which holds digits and
    hyphens only, for every year. *)
Theorem MarshalJSON_total (d : LocalDate) :
  exists s, MarshalJSON d = Ok (Json.quoted s) /\
            Json.UnmarshalString (Json.quoted s) = Ok s /\
            forallb plainChar (list_ascii_of_string s) = true /\
            (IsInfinity d = true -> s = "infinity") /\
            (IsInfinity d = false -> IsNegInfinity d = true -> s = "-infinity") /\
            (IsInfinity d = false -> IsNegInfinity d = false ->
             s = Format_2006_01_02 (Time d) /\
             forallb dateChar (list_ascii_of_string s) = true).
Proof.
  unfold MarshalJSON.
  destruct (IsInfinity d); [| destruct (IsNegInfinity d)].
  - exists "infinity". split; [reflexivity |].
    split; [vm_compute; reflexivity |]. split; [vm_compute; reflexivity |].
    repeat split; discriminate.
  - exists "-infinity". split; [reflexivity |].
    split; [vm_compute; reflexivity |]. split; [vm_compute; reflexivity |].
    repeat split; discriminate.
  - exists (Format_2006_01_02 (Time d)).
    pose proof (Format_dateChars (Time d)) as Hd.
    pose proof (dateChars_plain _ Hd) as Hp.
    rewrite (MarshalString_plain _ Hp).
    split; [reflexivity |]. split; [exact (UnmarshalString_quoted _ Hp) |].
    split; [exact Hp |].
    split; [discriminate |]. split; [discriminate |].
    intros _ _. split; [reflexivity | exact Hd].
Qed.

Lemma MarshalJSON_total_witness :
  exists s, MarshalJSON (mkLocalDate 2932897 true) = Ok (Json.quoted s) /\
            Json.UnmarshalString (Json.quoted s) = Ok s /\
            s = "10000-01-01" /\
            forallb dateChar (list_ascii_of_string s) = true.
Proof.
  destruct (MarshalJSON_total (mkLocalDate 2932897 true))
    as (s & E & EU & _ & _ & _ & Es).
  destruct Es as [Es Ed]; [vm_compute; reflexivity | vm_compute; reflexivity |].
  exists s. split; [exact E | split; [exact EU | split; [| exact Ed]]].
  rewrite Es. vm_compute. reflexivity.
Defined.

(** A failing [UnmarshalJSON] leaves the receiver as it was, with an
    error of [encoding/json] or a [*time.ParseError].  A successful one
    leaves a 32-bit day count that is either valid or a sentinel with the
    receiver's flag. *)
Theorem UnmarshalJSON_atomic (d : LocalDate) (data : string) :
  (forall e, snd (UnmarshalJSON d data) = Some e ->
     fst (UnmarshalJSON d data) = d /\
     ((exists detail, e = JsonError detail) \/
      (exists detail, e = TimeParseError detail))) /\
  (snd (UnmarshalJSON d data) = None ->
     in_int32 (Days (fst (UnmarshalJSON d data))) /\
     (Valid (fst (UnmarshalJSON d data)) = true \/
      (Valid (fst (UnmarshalJSON d data)) = Valid d /\
       (Days (fst (UnmarshalJSON d data)) = daysInfinity \/
        Days (fst (UnmarshalJSON d data)) = daysNegInfinity)))).
Proof.
  unfold UnmarshalJSON.
  destruct (Json.UnmarshalString data) as [s | e0] eqn:EJ.
  - destruct (s =? "infinity")%string.
    { split; [discriminate |]. intros _. cbn [fst Days Valid]. split.
      - unfold in_int32, daysInfinity, MinInt32, MaxInt32. lia.
      - right. split; [reflexivity | left; reflexivity]. }
    destruct (s =? "-infinity")%string.
    { split; [discriminate |]. intros _. cbn [fst Days Valid]. split.
      - unfold in_int32, daysNegInfinity, MinInt32, MaxInt32. lia.
      - right. split; [reflexivity | right; reflexivity]. }
    destruct (Parse_2006_01_02 s) as [t | e1] eqn:EP.
    + split; [discriminate |]. intros _. cbn [fst].
      rewrite NewLocalDate_epochDay. cbn [Days Valid]. split.
      * apply wrap32_range.
      * left. reflexivity.
    + split; [| discriminate]. cbn [fst snd]. intros e [= <-].
      split; [reflexivity |]. right. exact (Parse_error_kind s e1 EP).
  - split; [| discriminate]. cbn [fst snd]. intros e [= <-].
    split; [reflexivity |]. left.
    unfold Json.UnmarshalString in EJ.
    destruct (Json.skipSpace data) as [|c rest]; [injection EJ as <-; eauto |].
    destruct (c =? Json.quote)%char.
    + destruct (Json.unquoteBody rest) as [[s after]|]; [| injection EJ as <-; eauto].
      destruct (Json.skipSpace after); [discriminate | injection EJ as <-; eauto].
    + destruct (String.prefix "null" (String c rest)); [| injection EJ as <-; eauto].
      destruct (Json.skipSpace _); [discriminate | injection EJ as <-; eauto].
Qed.

Lemma UnmarshalJSON_atomic_witness :
  fst (UnmarshalJSON InfinityDate "null") = InfinityDate.
Proof.
  apply (proj1 (UnmarshalJSON_atomic InfinityDate "null")
           (TimeParseError EmptyString)).
  vm_compute. reflexivity.
Defined.

(** Scanning a string and decoding the same string in JSON quotes are
    the same operation, for strings that JSON writes as they are. *)
Theorem Scan_string_as_UnmarshalJSON (d : LocalDate) (s : string) :
  forallb plainChar (list_ascii_of_string s) = true ->
  Scan d (SVString s) = UnmarshalJSON d (Json.quoted s).
Proof.
  intros Hp. unfold UnmarshalJSON.
  rewrite (UnmarshalString_quoted _ Hp). reflexivity.
Qed.

Lemma Scan_string_as_UnmarshalJSON_witness :
  Scan zeroLocalDate (SVString "2024-02-29")
  = UnmarshalJSON zeroLocalDate (Json.quoted "2024-02-29").
Proof.
  apply (Scan_string_as_UnmarshalJSON zeroLocalDate "2024-02-29"). reflexivity.
Defined.

Lemma digit_dig (c : ascii) : isDigitChar c = true -> digit (dig c) = c.
Proof.
  intros _. unfold digit, dig. replace (48 + (code c - 48)) with (code c) by lia.
  apply chr_code.
Qed.

Lemma fmtDate_of_fields (s : string) (y m d : Z) :
  dateFields s = Some (y, m, d) -> fmtDate y m d = s.
Proof.
  destruct s as [|y1 [|y2 [|y3 [|y4 [|h1 [|m1 [|m2 [|h2 [|d1 [|d2 [|x r]]]]]]]]]]];
    try discriminate.
  cbn [dateFields].
  destruct (isDigitChar y1) eqn:Hy1; [|discriminate].
  destruct (isDigitChar y2) eqn:Hy2; [|discriminate].
  destruct (isDigitChar y3) eqn:Hy3; [|discriminate].
  destruct (isDigitChar y4) eqn:Hy4; [|discriminate].
  destruct (Ascii.eqb_spec h1 "-") as [->|]; [|discriminate].
  destruct (isDigitChar m1) eqn:Hm1; [|discriminate].
  destruct (isDigitChar m2) eqn:Hm2; [|discriminate].
  destruct (Ascii.eqb_spec h2 "-") as [->|]; [|discriminate].
  destruct (isDigitChar d1) eqn:Hd1; [|discriminate].
  destruct (isDigitChar d2) eqn:Hd2; [|discriminate].
  cbn [andb]. intros [= <- <- <-]. unfold fmtDate.
  pose proof (proj1 (isDigitChar_code _) Hy1). pose proof (proj1 (isDigitChar_code _) Hy2).
  pose proof (proj1 (isDigitChar_code _) Hy3). pose proof (proj1 (isDigitChar_code _) Hy4).
  pose proof (proj1 (isDigitChar_code _) Hm1). pose proof (proj1 (isDigitChar_code _) Hm2).
  pose proof (proj1 (isDigitChar_code _) Hd1). pose proof (proj1 (isDigitChar_code _) Hd2).
  unfold dig in *.
  repeat match goal with
  | |- String (digit ?k) _ = String ?c _ =>
      replace k with (dig c) by (unfold dig; lia);
      rewrite (digit_dig c) by assumption; f_equal
  | |- String "-" _ = String "-" _ => f_equal
  end.
Qed.

Lemma Parse_Ok_date (s : string) (t : GoTime.Time) :
  Parse_2006_01_02 s = Ok t ->
  exists y m d, dateFields s = Some (y, m, d) /\ validDate y m d /\
    NewLocalDate (Year t) (Month t) (Day t) = mkLocalDate (epochDay y m d) true.
Proof.
  intros E. destruct (Parse_Ok_fields s t E) as (y & m & d & Hf).
  destruct (validDateb y m d) eqn:Hv.
  - apply validDateb_spec in Hv. exists y, m, d.
    split; [exact Hf | split; [exact Hv |]].
    destruct (At_of_fields s y m d Hf Hv) as [HA _].
    unfold At in HA. rewrite E in HA. congruence.
  - assert (Hn : ~ validDate y m d)
      by (intros Hc; apply validDateb_spec in Hc; congruence).
    destruct (Parse_invalid s y m d Hf Hn) as [detail E']. congruence.
Qed.

(** [Scan] accepts a string exactly when it is one of the two tokens or
    a date text of the strict shape naming an existing day; a token sets
    the day count and keeps the receiver's flag, a date text yields that
    day, valid. *)
Theorem Scan_string_accepts (d r : LocalDate) (s : string) :
  Scan d (SVString s) = (r, None) <->
  (s = "infinity" /\ r = mkLocalDate daysInfinity (Valid d)) \/
  (s = "-infinity" /\ r = mkLocalDate daysNegInfinity (Valid d)) \/
  (exists y m dd, dateFields s = Some (y, m, dd) /\ validDate y m dd
                  /\ r = mkLocalDate (epochDay y m dd) true).
Proof.
  cbn [Scan]. split.
  - destruct (String.eqb_spec s "infinity") as [-> | N1].
    { intros [= <-]. left. split; reflexivity. }
    destruct (String.eqb_spec s "-infinity") as [-> | N2].
    { intros [= <-]. right. left. split; reflexivity. }
    destruct (Parse_2006_01_02 s) as [t | e] eqn:E; [| discriminate].
    intros [= <-]. right. right.
    destruct (Parse_Ok_date s t E) as (y & m & dd & Hf & Hv & HN).
    exists y, m, dd. split; [exact Hf | split; [exact Hv | exact HN]].
  - intros [[-> ->] | [[-> ->] | (y & m & dd & Hf & Hv & ->)]].
    + reflexivity.
    + reflexivity.
    + destruct (dateFields_not_token s y m dd Hf) as [-> ->].
      destruct (At_of_fields s y m dd Hf Hv) as [HA _]. unfold At in HA.
      destruct (Parse_2006_01_02 s); [exact HA | discriminate].
Qed.

Lemma Scan_string_accepts_witness :
  exists y m dd, dateFields "2024-02-29" = Some (y, m, dd) /\ validDate y m dd
                 /\ NewLocalDate 2024 2 29 = mkLocalDate (epochDay y m dd) true.
Proof.
  destruct (proj1 (Scan_string_accepts InfinityDate (NewLocalDate 2024 2 29)
                     "2024-02-29")) as [[H _] | [[H _] | H]].
  - vm_compute. reflexivity.
  - discriminate H.
  - discriminate H.
  - exact H.
Defined.

(** The text encoding of a parsed date is the text that was parsed. *)
Theorem At_MarshalJSON (s : string) (y m d : Z) :
  dateFields s = Some (y, m, d) -> validDate y m d ->
  MarshalJSON (fst (At s)) = Ok (Json.quoted s).
Proof.
  intros Hf Hv. destruct (At_of_fields s y m d Hf Hv) as [-> HD]. cbn [fst].
  pose proof (dateFields_year s y m d Hf) as (Hy & Hm & Hd).
  pose proof (epochDay_range y m d Hy Hv) as Hr.
  unfold MarshalJSON, IsInfinity, IsNegInfinity. cbn [Days].
  replace (epochDay y m d =? daysInfinity) with false
    by (symmetry; apply Z.eqb_neq; unfold daysInfinity, MaxInt32; lia).
  replace (epochDay y m d =? daysNegInfinity) with false
    by (symmetry; apply Z.eqb_neq; unfold daysNegInfinity, MinInt32; lia).
  rewrite (Format_fmtDate _ y m d HD Hy Hm Hd), (fmtDate_of_fields s y m d Hf).
  rewrite (MarshalString_plain s (dateFields_plain s y m d Hf)). reflexivity.
Qed.

Lemma At_MarshalJSON_witness :
  MarshalJSON (fst (At "2024-02-29")) = Ok (Json.quoted "2024-02-29").
Proof.
  apply (At_MarshalJSON "2024-02-29" 2024 2 29).
  - reflexivity.
  - vm_compute. repeat split; discriminate.
Defined.

(** The text of a sentinel decodes to the sentinel's day count with the
    flag of the receiver. *)
Theorem sentinel_text_roundtrip (r d : LocalDate) :
  Days d = daysInfinity \/ Days d = daysNegInfinity ->
  exists data, MarshalJSON d = Ok data /\
               UnmarshalJSON r data = (mkLocalDate (Days d) (Valid r), None).
Proof.
  intros [H | H]; unfold MarshalJSON, IsInfinity, IsNegInfinity; rewrite H.
  - exists (Json.quoted "infinity"). split; [reflexivity |].
    destruct r as [n v]. vm_compute. reflexivity.
  - exists (Json.quoted "-infinity"). split; [reflexivity |].
    destruct r as [n v]. vm_compute. reflexivity.
Qed.

Lemma sentinel_text_roundtrip_witness :
  exists data, MarshalJSON NegInfinityDate = Ok data /\
               UnmarshalJSON InfinityDate data = (NegInfinityDate, None).
Proof.
  apply (sentinel_text_roundtrip InfinityDate NegInfinityDate).
  right. reflexivity.
Defined.

End Decoders.

(* ================================================================= *)
(** ** The order of the calendar *)

Section CalendarOrder.

Ltac Zify.zify_post_hook ::= Z.to_euclidean_division_equations.

Lemma yearDay_lt (leap : bool) (m1 d1 m2 d2 : Z) :
  1 <= m1 <= 12 -> 1 <= d1 <= daysInMonth leap m1 ->
  1 <= m2 <= 12 -> 1 <= d2 <= daysInMonth leap m2 ->
  m1 < m2 \/ (m1 = m2 /\ d1 < d2) ->
  yearDay leap m1 d1 < yearDay leap m2 d2.
Proof.
  intros Hm1 Hd1 Hm2 Hd2 Hlt.
  pose proof (daysInMonth_le_31 leap m1 Hm1) as B1.
  pose proof (daysInMonth_le_31 leap m2 Hm2) as B2.
  assert (H : forallb (fun a => forallb (fun b => forallb (fun c =>
                forallb (yearDay_lt_ok leap a b c) (upto 31)) (upto 12)) (upto 31))
                (upto 12) = true)
    by (destruct leap; vm_compute; reflexivity).
  pose proof (upto_forallb _ _ H (m1 - 1) ltac:(lia)) as H1. cbv beta in H1.
  pose proof (upto_forallb _ _ H1 (d1 - 1) ltac:(lia)) as H2. cbv beta in H2.
  pose proof (upto_forallb _ _ H2 (m2 - 1) ltac:(lia)) as H3. cbv beta in H3.
  pose proof (upto_forallb _ _ H3 (d2 - 1) ltac:(lia)) as H4.
  unfold yearDay_lt_ok in H4.
  replace (m1 - 1 + 1) with m1 in H4 by lia. replace (d1 - 1 + 1) with d1 in H4 by lia.
  replace (m2 - 1 + 1) with m2 in H4 by lia. replace (d2 - 1 + 1) with d2 in H4 by lia.
  replace ((d1 <=? daysInMonth leap m1) && (d2 <=? daysInMonth leap m2)
           && ((m1 - 1 <? m2 - 1) || ((m1 - 1 =? m2 - 1) && (d1 - 1 <? d2 - 1))))
    with true in H4.
  - apply Z.ltb_lt. exact H4.
  - symmetry. rewrite !andb_true_iff, orb_true_iff, andb_true_iff. lia.
Qed.

Lemma epochDay_lt (y1 m1 d1 y2 m2 d2 : Z) :
  validDate y1 m1 d1 -> validDate y2 m2 d2 ->
  y1 < y2 \/ (y1 = y2 /\ (m1 < m2 \/ (m1 = m2 /\ d1 < d2))) ->
  epochDay y1 m1 d1 < epochDay y2 m2 d2.
Proof.
  intros [Hm1 Hd1] [Hm2 Hd2] Hlt. unfold epochDay.
  rewrite !dateToAbsDays_valid by assumption.
  pose proof (yearDay_spec (isLeap y1) m1 d1 Hm1 Hd1) as [B1 _].
  pose proof (yearDay_spec (isLeap y2) m2 d2 Hm2 Hd2) as [B2 _].
  destruct Hlt as [Hy | [-> Hmd]].
  - pose proof (daysSinceEpoch_step y1).
    pose proof (daysSinceEpoch_mono (y1 + 1) y2 ltac:(lia)). lia.
  - pose proof (yearDay_lt (isLeap y2) m1 d1 m2 d2 Hm1 Hd1 Hm2 Hd2 Hmd). lia.
Qed.

Lemma epochDay_range_wide (y m d : Z) :
  -5000000 <= y <= 5000000 -> validDate y m d ->
  -1826932028 <= epochDay y m d <= 1825493337.
Proof.
  intros Hy [Hm Hd]. unfold epochDay. rewrite dateToAbsDays_valid by exact Hm.
  pose proof (yearDay_spec (isLeap y) m d Hm Hd) as [Hyd _].
  pose proof (daysSinceEpoch_mono (-5000000) y ltac:(lia)) as H0.
  pose proof (daysSinceEpoch_mono (y + 1) 5000001 ltac:(lia)) as H1.
  rewrite daysSinceEpoch_step in H1.
  assert (E0 : daysSinceEpoch (-5000000) = epochAbsDays - 1826932028)
    by (vm_compute; reflexivity).
  assert (E1 : daysSinceEpoch 5000001 = epochAbsDays + 1825493338)
    by (vm_compute; reflexivity).
  lia.
Qed.

(** For an existing day of the years -5000000 to 5000000 [NewLocalDate]
    neither wraps nor hits a sentinel, and [Time] of its result shows
    the year, month and day it was given. *)
Theorem NewLocalDate_decode (y m d : Z) :
  -5000000 <= y <= 5000000 -> validDate y m d ->
  NewLocalDate y m d = mkLocalDate (epochDay y m d) true /\
  DateOf (Time (NewLocalDate y m d)) = (y, m, d) /\
  IsInfinity (NewLocalDate y m d) = false /\
  IsNegInfinity (NewLocalDate y m d) = false.
Proof.
  intros Hy Hv. pose proof (epochDay_range_wide y m d Hy Hv) as Hr.
  assert (E : NewLocalDate y m d = mkLocalDate (epochDay y m d) true).
  { rewrite NewLocalDate_epochDay, wrap32_id
      by (unfold in_int32, MinInt32, MaxInt32; lia). reflexivity. }
  rewrite E. split; [reflexivity |]. split; [| split].
  - rewrite DateOf_Time by (cbn [Days]; unfold daysInfinity, MaxInt32; lia).
    cbn [Days]. unfold epochDay.
    replace (dateToAbsDays y m d - epochAbsDays + epochAbsDays)
      with (dateToAbsDays y m d) by lia.
    apply absDate_inv; [unfold absoluteZeroYear; lia | exact Hv | lia].
  - unfold IsInfinity, daysInfinity, MaxInt32. cbn [Days]. apply Z.eqb_neq. lia.
  - unfold IsNegInfinity, daysNegInfinity, MinInt32. cbn [Days].
    apply Z.eqb_neq. lia.
Qed.

Lemma NewLocalDate_decode_witness :
  DateOf (Time (NewLocalDate 2024 2 29)) = (2024, 2, 29).
Proof.
  apply (NewLocalDate_decode 2024 2 29).
  - lia.
  - vm_compute. repeat split; discriminate.
Defined.

(** On existing days of those years the order of the dates is the order
    of the calendar, and equal dates are the same day. *)
Theorem NewLocalDate_monotone (y1 m1 d1 y2 m2 d2 : Z) :
  -5000000 <= y1 <= 5000000 -> -5000000 <= y2 <= 5000000 ->
  validDate y1 m1 d1 -> validDate y2 m2 d2 ->
  (IsBefore (NewLocalDate y1 m1 d1) (NewLocalDate y2 m2 d2) = true <->
   y1 < y2 \/ (y1 = y2 /\ (m1 < m2 \/ (m1 = m2 /\ d1 < d2)))) /\
  (IsEqual (NewLocalDate y1 m1 d1) (NewLocalDate y2 m2 d2) = true <->
   y1 = y2 /\ m1 = m2 /\ d1 = d2).
Proof.
  intros Hy1 Hy2 Hv1 Hv2.
  pose proof (epochDay_range_wide y1 m1 d1 Hy1 Hv1) as Hr1.
  pose proof (epochDay_range_wide y2 m2 d2 Hy2 Hv2) as Hr2.
  rewrite !NewLocalDate_epochDay, !wrap32_id
    by (unfold in_int32, MinInt32, MaxInt32; lia).
  unfold IsBefore, IsEqual. cbn [Days Valid]. rewrite andb_true_r.
  rewrite Z.ltb_lt, Z.eqb_eq.
  assert (Hcases : (y1 < y2 \/ (y1 = y2 /\ (m1 < m2 \/ (m1 = m2 /\ d1 < d2)))) \/
                   (y1 = y2 /\ m1 = m2 /\ d1 = d2) \/
                   (y2 < y1 \/ (y2 = y1 /\ (m2 < m1 \/ (m2 = m1 /\ d2 < d1)))))
    by lia.
  destruct Hcases as [Hlt | [(-> & -> & ->) | Hgt]].
  - pose proof (epochDay_lt _ _ _ _ _ _ Hv1 Hv2 Hlt). split; split; intros; lia.
  - split; split; intros; lia.
  - pose proof (epochDay_lt _ _ _ _ _ _ Hv2 Hv1 Hgt). split; split; intros; lia.
Qed.

Lemma NewLocalDate_monotone_witness :
  IsBefore (NewLocalDate 2023 12 31) (NewLocalDate 2024 1 1) = true.
Proof.
  apply (proj1 (NewLocalDate_monotone 2023 12 31 2024 1 1
                  ltac:(lia) ltac:(lia)
                  ltac:(vm_compute; repeat split; discriminate)
                  ltac:(vm_compute; repeat split; discriminate))).
  left. lia.
Defined.

End CalendarOrder.
